(** * ETMMsg: lazy media resolution and pickling of Telegram messages

    A shallow embedding of [efb_telegram_master/message.py].

    A Python object is its instance dictionary ([gmap string pyval]);
    attribute reads fall back on the class attributes exactly as the class
    body declares them.  Temporary files, the Telegram bot, the external
    transcoders, the task queue and the chat directory are an explicit
    world threaded through a state-and-exception monad; what the libraries
    outside the file compute is taken from an environment record. *)

From stdpp Require Import gmap strings pretty list fin_maps.
From Stdlib Require Import ZArith.
From Stdlib.Strings Require Import Ascii Byte.

Open Scope string_scope.
Open Scope Z_scope.

(** ** Values *)

Module TGMsgType.
(** [TGMsgType] of [msg_type.py]: the members [message.py] names; every
    other member is carried by its name. *)
Inductive t := Animation | Sticker | AnimatedSticker | Audio | Other (name : string).
#[global] Instance eq_dec : EqDecision t.
Proof. solve_decision. Defined.
End TGMsgType.

Module MsgType.
(** [ehforwarderbot.MsgType]: [message.py] names [Animation] only. *)
Inductive t := Animation | Other (name : string).
#[global] Instance eq_dec : EqDecision t.
Proof. solve_decision. Defined.
End MsgType.

Module ChatType.
(** [ehforwarderbot.ChatType]: [message.py] names [Group] only. *)
Inductive t := Group | Other (name : string).
#[global] Instance eq_dec : EqDecision t.
Proof. solve_decision. Defined.
End ChatType.

(** An [ETMChat] object.  [oid] is the identity of the Python object
    ([id(chat)]): two references denote the same object iff their [oid]
    agree. *)
Record ETMChat := mkChat {
  oid : nat;
  module_id : string;
  chat_uid : string;
  chat_type : ChatType.t;
  is_self : bool
}.

#[global] Instance ETMChat_eq_dec : EqDecision ETMChat.
Proof. solve_decision. Defined.

(** The Python values a message attribute holds.  [VFile h] is an open
    file object, [h] its index in the table of temporary files;
    [VChannel c] is a channel object whose [channel_id] is [c]. *)
Inductive pyval :=
| VNone
| VBool (b : bool)
| VStr (s : string)
| VBytes (b : list byte)
| VFile (h : nat)
| VChat (c : ETMChat)
| VTGType (t : TGMsgType.t)
| VMsgType (t : MsgType.t)
| VChannel (channel_id : string)
| VObject (addr : nat).

#[global] Instance byte_eq_dec : EqDecision byte.
Proof. intros a b. unfold Decision. apply Byte.byte_eq_dec. Defined.

#[global] Instance pyval_eq_dec : EqDecision pyval.
Proof. solve_decision. Defined.

(** Truth value of [if v:] / [not v] / [v or w]. *)
Definition truthy (v : pyval) : bool :=
  match v with
  | VNone => false
  | VBool b => b
  | VStr s => negb (bool_decide (s = ""))
  | VBytes b => negb (bool_decide (b = []))
  | _ => true
  end.

(** [v is not None] *)
Definition is_not_None (v : pyval) : bool :=
  match v with VNone => false | _ => true end.

(** [a or b] *)
Definition py_or (a b : pyval) : pyval := if truthy a then a else b.

(** [str(v)] inside an f-string, for the optional strings that occur. *)
Definition py_format (v : option string) : string :=
  match v with Some s => s | None => "None" end.

Definition of_opt_str (v : option string) : pyval :=
  match v with Some s => VStr s | None => VNone end.

(** ** Exceptions and results *)

Inductive exn :=
| AttributeError (name : string)
| TypeError (what : string)
| ExternalError (what : string).

Inductive result (A : Type) :=
| Ok (a : A)
| Raise (e : exn).
Arguments Ok {A} a.
Arguments Raise {A} e.

(** ** The world *)

(** A [tempfile.NamedTemporaryFile]: its name, the bytes it holds, the
    position of the handle and whether it was closed (which deletes it). *)
Record tmpfile := mkTmp {
  f_name : string;
  f_data : list byte;
  f_pos : nat;
  f_closed : bool
}.

(** One call of [ChatObjectCacheManager.get_chat]: the two positional
    arguments, the optional third positional argument and [build_dummy]. *)
Record get_chat_call := mkCall {
  gc_module : string;
  gc_id : string;
  gc_parent : option string;
  gc_build_dummy : bool
}.

(** What the code does to the outside, in order. *)
Inductive event :=
| EvBotGetFile (file_id : string)
| EvDownload (file_id : string)
| EvMagic (path : string)
| EvVideoFileClip (path : string)
| EvPopen (argv : list string)
| EvWriteGif (path : string) (program : string)
| EvImageConvert (src : string) (mode : string) (format : string)
| EvConvertTgs (src : string) (dst : string)
| EvAddTask (fn : string) (args : list pyval)
| EvGetChat (call : get_chat_call).

Record state := mkState {
  self : gmap string pyval;
  fs : list tmpfile;
  trace : list event
}.

Definition set_self (d : gmap string pyval) (s : state) : state :=
  mkState d (fs s) (trace s).
Definition set_fs (l : list tmpfile) (s : state) : state :=
  mkState (self s) l (trace s).
Definition emit (e : event) (s : state) : state :=
  mkState (self s) (fs s) (trace s ++ [e]).


(** ** The monad: state that survives an exception *)

Definition M (A : Type) : Type := state → result A * state.

Definition ret {A} (a : A) : M A := λ s, (Ok a, s).
Definition raise {A} (e : exn) : M A := λ s, (Raise e, s).
Definition bind {A B} (m : M A) (k : A → M B) : M B :=
  λ s, match m s with
       | (Ok a, s') => k a s'
       | (Raise e, s') => (Raise e, s')
       end.

Notation "'do' x <- m ; k" := (bind m (λ x, k))
  (at level 10, x name, m at level 100, k at level 200).
Notation "m ;; k" := (bind m (λ _, k))
  (at level 100, k at level 200, right associativity).


(** ** What lies outside [message.py] *)

(** The parts of a [telegram.Message] that [put_telegram_file] reads. *)
Module telegram.
Record Attachment := mkAttachment {
  file_id : string;
  mime_type : option string
}.
Record Audio := mkAudio {
  audio_file_id : string;
  audio_mime_type : option string;
  title : option string;
  performer : option string
}.
(* [is_animated] is what tells a vector sticker from a static one; it is
   read by [get_msg_type], not by [put_telegram_file]. *)
Record Sticker := mkSticker { sticker_file_id : string; is_animated : bool }.
Record PhotoSize := mkPhotoSize { photo_file_id : string }.
(* A [VideoNote] has a [file_id] and no [mime_type] attribute. *)
Record VideoNote := mkVideoNote { video_note_file_id : string }.
Record Message := mkMessage {
  animation : option Attachment;
  document : option Attachment;
  video : option Attachment;
  voice : option Attachment;
  video_note : option VideoNote;
  audio : option Audio;
  sticker : option Sticker;
  photo : list PhotoSize
}.
End telegram.

(** What [getattr(message, tg_media_type, None)] yields for the five
    common types: an attachment that has a [mime_type] attribute, or a
    video note, which has none. *)
Inductive common_file :=
| WithMime (a : telegram.Attachment)
| NoMime (v : telegram.VideoNote).

(** [attachment.file_id] *)
Definition common_file_id (c : common_file) : string :=
  match c with
  | WithMime a => telegram.file_id a
  | NoMime v => telegram.video_note_file_id v
  end.

(** [attachment.mime_type]; a video note has no such attribute. *)
Definition common_mime_type (c : common_file) : M (option string) :=
  match c with
  | WithMime a => ret (telegram.mime_type a)
  | NoMime _ => raise (AttributeError "mime_type")
  end.

(** The size of a decoded clip, [VideoFileClip(...).size]. *)
Record clip := mkClip { clip_width : Z; clip_height : Z }.

(** The functions and services [message.py] calls but does not define.
    An [option] result is [None] when the call raises. *)
Record Env := mkEnv {
  (* coordinator.master.bot_manager.get_file(file_id).file_path *)
  bot_get_file : string → option string;
  (* file_meta.download(out=...): the payload *)
  file_meta_download : string → option (list byte);
  (* os.path.splitext(path)[1] *)
  splitext_ext : string → string;
  (* mimetypes.guess_type(path, strict=False)[0] *)
  guess_type : string → option string;
  (* mimetypes.guess_extension(mime, strict=False) *)
  guess_extension : string → option string;
  (* mimetypes.guess_extension(mime), with the default strict=True *)
  guess_extension_strict : string → option string;
  (* magic.from_file(path, mime=True), a str or a bytes, on the file's content *)
  magic_from_file : list byte → option pyval;
  (* bytes.decode() *)
  bytes_decode : list byte → option string;
  (* directory, prefix and random part of the n-th temporary file *)
  tmp_path : nat → string;
  (* VideoFileClip(path) on the file's content *)
  video_file_clip : list byte → option clip;
  (* ffmpeg run through subprocess.Popen: what it leaves in its output file *)
  popen_ffmpeg : list string → list byte → option (list byte);
  (* clip.write_gif(path, program="ffmpeg") *)
  write_gif : list byte → option (list byte);
  (* Image.open(f).convert("RGBA").save(out, 'png') *)
  image_to_png : list byte → option (list byte);
  (* utils.convert_tgs_to_gif(src, dst): Some gif when it returns True;
     what it has written to dst when it returns False *)
  convert_tgs_to_gif : list byte → option (list byte);
  tgs_partial_output : list byte → list byte;
  (* how far the converter has read its input when it returns *)
  tgs_input_pos : list byte → nat;
  (* utils.chat_id_to_str(chat=...) and utils.chat_id_str_to_id *)
  chat_id_to_str : ETMChat → string;
  chat_id_str_to_id : string → option (string * string);
  (* ETMChat.__ne__ *)
  chat_ne : ETMChat → ETMChat → bool;
  (* msg_type.get_msg_type *)
  get_msg_type : telegram.Message → TGMsgType.t;
  (* EFBMsg.__getstate__ on the instance dictionary *)
  super_getstate : gmap string pyval → gmap string pyval;
  (* EFBMsg.__setstate__(self, state).  The base class works on the object
     itself: besides the instance dictionary it may read and assign
     attributes of [self], which for [file], [path] and [filename] are the
     properties of [ETMMsg].  It is given these reads and assignments. *)
  super_setstate : (string → M pyval) → (string → pyval → M unit) →
                   gmap string pyval → M unit;
  (* the attribute assignments of EFBMsg.__init__, in order *)
  super_init : list (string * pyval);
  (* class attributes of EFBMsg *)
  super_class_attr : string → option pyval
}.

(** [chat_manager.get_chat]: the directory is an object with a state of
    its own, so its answer may depend on the calls made before. *)
Definition ChatObjectCacheManager : Type :=
  list get_chat_call → get_chat_call → option pyval.

(** [os.path.basename]: what follows the last slash. *)
Fixpoint basename_from (acc p : string) : string :=
  match p with
  | EmptyString => acc
  | String c r =>
      if Ascii.eqb c "/"%char then basename_from "" r
      else basename_from (acc +:+ String c "") r
  end.
Definition basename (p : string) : string := basename_from "" p.

(** ** Temporary files *)

Definition with_file {A} (h : nat) (k : tmpfile → M A) : M A :=
  λ s, match fs s !! h with
       | Some f => k f s
       | None => (Raise (ExternalError "no such file object"), s)
       end.

Definition update_file (h : nat) (g : tmpfile → tmpfile) : M unit :=
  with_file h (λ f s, (Ok tt, set_fs (<[h := g f]> (fs s)) s)).

(** [f.name] *)
Definition file_name (h : nat) : M string :=
  with_file h (λ f, ret (f_name f)).

(** [f.seek(pos)] *)
Definition file_seek (h : nat) (pos : nat) : M unit :=
  update_file h (λ f, mkTmp (f_name f) (f_data f) pos (f_closed f)).

(** [f.close()] *)
Definition file_close (h : nat) : M unit :=
  update_file h (λ f, mkTmp (f_name f) (f_data f) (f_pos f) true).

(** [f.write(b)]: at the position of the handle, which advances. *)
Definition file_write (h : nat) (b : list byte) : M unit :=
  update_file h (λ f,
    mkTmp (f_name f)
          (take (f_pos f) (f_data f) ++ b ++ drop (f_pos f + length b) (f_data f))
          (f_pos f + length b) (f_closed f)).

(** What a reader of the handle gets: the bytes from its position on. *)
Definition file_rest (h : nat) : M (list byte) :=
  with_file h (λ f, ret (drop (f_pos f) (f_data f))).

(** The bytes a program finds when it opens the file by its name. *)
Definition file_content (h : nat) : M (list byte) :=
  with_file h (λ f, ret (f_data f)).

(** A program that writes the file by its name replaces the content; the
    handle does not move. *)
Definition file_replace (h : nat) (b : list byte) : M unit :=
  update_file h (λ f, mkTmp (f_name f) b (f_pos f) (f_closed f)).

Definition log (e : event) : M unit := λ s, (Ok tt, emit e s).

Definition or_raise {A} (o : option A) (what : string) : M A :=
  match o with Some a => ret a | None => raise (ExternalError what) end.

Definition as_str (v : pyval) : M string :=
  match v with VStr s => ret s | _ => raise (TypeError "str expected") end.

(** [v + suffix] for a string suffix *)
Definition py_add_str (v : pyval) (suffix : string) : M pyval :=
  match v with
  | VStr s => ret (VStr (s +:+ suffix))
  | _ => raise (TypeError "unsupported operand for +")
  end.

(** ** The class [ETMMsg] *)

Section ETMMsg.
Context (env : Env).

(** Attributes the class body of [ETMMsg] gives a value ([media_type],
    [file_id], [__file], [__path], [__filename], all [None]); the other
    names are looked up in the base class. *)
Definition class_attr (name : string) : option pyval :=
  if bool_decide (name ∈ ["media_type"; "file_id"; "_ETMMsg__file";
                          "_ETMMsg__path"; "_ETMMsg__filename"])
  then Some VNone
  else super_class_attr env name.

(** [self.name] for an attribute that is not a property. *)
Definition getattr (name : string) : M pyval :=
  λ s, match self s !! name with
       | Some v => (Ok v, s)
       | None =>
           match class_attr name with
           | Some v => (Ok v, s)
           | None => (Raise (AttributeError name), s)
           end
       end.

(** [self.name = v] for an attribute that is not a property. *)
Definition setattr (name : string) (v : pyval) : M unit :=
  λ s, (Ok tt, set_self (<[name := v]> (self s)) s).

(** [tempfile.NamedTemporaryFile(suffix=...)]: a fresh, empty, open file. *)
Definition NamedTemporaryFile (suffix : pyval) : M nat :=
  λ s,
    let sfx := match suffix with VStr x => x | _ => "" end in
    let h := length (fs s) in
    (Ok h, set_fs (fs s ++ [mkTmp (tmp_path env h +:+ sfx) [] 0 false]) s).

(** [self.deliver_to.channel_id] *)
Definition deliver_to_channel_id : M pyval :=
  do d <- getattr "deliver_to";
  match d with
  | VChannel c => ret (VStr c)
  | _ => raise (AttributeError "channel_id")
  end.

(** The animation branch of [_load_file] (lines 96-115). *)
Definition load_animation (file : nat) : M unit :=
  do channel_id <- deliver_to_channel_id;
  do gif_file <- NamedTemporaryFile (VStr ".gif");
  do name <- file_name file;
  do gif_name <- file_name gif_file;
  do src <- file_content file;
  log (EvVideoFileClip name);;
  do v <- or_raise (video_file_clip env src) "VideoFileClip";
  (if bool_decide (channel_id = VStr "blueset.wechat") && bool_decide (clip_width v > 600)
   then
     let argv := ["ffmpeg"; "-y"; "-i"; name; "-vf"; "scale=600:-2"; gif_name] in
     log (EvPopen argv);;
     do out <- or_raise (popen_ffmpeg env argv src) "Popen";
     file_replace gif_file out
   else
     log (EvWriteGif gif_name "ffmpeg");;
     do out <- or_raise (write_gif env src) "write_gif";
     file_replace gif_file out);;
  file_close file;;
  file_seek gif_file 0;;
  setattr "_ETMMsg__file" (VFile gif_file);;
  setattr "_ETMMsg__path" (VStr gif_name);;
  do fn <- getattr "_ETMMsg__filename";
  setattr "_ETMMsg__filename" (py_or fn (VStr (basename gif_name)));;
  setattr "mime" (VStr "image/gif").

(** The static sticker branch (lines 117-124). *)
Definition load_sticker (file : nat) : M unit :=
  do out_file <- NamedTemporaryFile (VStr ".png");
  do name <- file_name file;
  do src <- file_rest file;
  log (EvImageConvert name "RGBA" "png");;
  do png <- or_raise (image_to_png env src) "Image";
  file_write out_file png;;
  file_close file;;
  file_seek out_file 0;;
  setattr "mime" (VStr "image/png");;
  do fn <- getattr "_ETMMsg__filename";
  do fn' <- py_add_str (py_or fn (VStr (basename name))) ".png";
  setattr "_ETMMsg__filename" fn';;
  setattr "_ETMMsg__file" (VFile out_file);;
  do out_name <- file_name out_file;
  setattr "_ETMMsg__path" (VStr out_name).

(** The animated sticker branch (lines 126-140). *)
Definition load_animated_sticker (file : nat) : M unit :=
  do out_file <- NamedTemporaryFile (VStr ".gif");
  do name <- file_name file;
  do out_name <- file_name out_file;
  do src <- file_rest file;
  log (EvConvertTgs name out_name);;
  file_seek file (tgs_input_pos env src);;
  do out_file' <-
    match convert_tgs_to_gif env src with
    | Some gif =>
        file_write out_file gif;;
        file_close file;;
        file_seek out_file 0;;
        setattr "mime" (VStr "image/gif");;
        do fn <- getattr "_ETMMsg__filename";
        do fn' <- py_add_str (py_or fn (VStr (basename name))) ".gif";
        setattr "_ETMMsg__filename" fn';;
        ret out_file
    | None =>
        (* Conversion failed, send file as is. *)
        file_write out_file (tgs_partial_output env src);;
        file_close out_file;;
        file_seek file 0;;
        setattr "mime" (VStr "application/json");;
        do fn <- getattr "_ETMMsg__filename";
        do fn' <- py_add_str (py_or fn (VStr (basename name))) ".json";
        setattr "_ETMMsg__filename" fn';;
        ret file
    end;
  setattr "_ETMMsg__file" (VFile out_file');;
  do path <- file_name out_file';
  setattr "_ETMMsg__path" (VStr path).

(** The download of [_load_file] (lines 73-93): the payload goes to a
    fresh temporary file, the MIME type is settled, and the file, its
    path and a file name are stored.  Returns the temporary file. *)
Definition fetch (file_id : pyval) : M nat :=
  do fid <- as_str file_id;
  log (EvBotGetFile fid);;
  do file_path <- or_raise (bot_get_file env fid) "bot.get_file";
  do mime0 <- getattr "mime";
  do em <-
    (if negb (truthy mime0)
     then ret (VStr (splitext_ext env file_path),
               of_opt_str (guess_type env file_path))
     else
       do ms <- as_str mime0;
       ret (of_opt_str (guess_extension env ms), mime0));
  do file <- NamedTemporaryFile (fst em);
  do full_path <- file_name file;
  log (EvDownload fid);;
  do payload <- or_raise (file_meta_download env fid) "download";
  file_write file payload;;
  file_seek file 0;;
  do mime <-
    (if truthy (snd em) then ret (snd em)
     else
       log (EvMagic full_path);;
       do content <- file_content file;
       or_raise (magic_from_file env content) "magic.from_file");
  do mime' <-
    match mime with
    | VBytes b =>
        do d <- or_raise (bytes_decode env b) "decode";
        ret (VStr d)
    | _ => ret mime
    end;
  setattr "mime" mime';;
  setattr "_ETMMsg__file" (VFile file);;
  do name <- file_name file;
  setattr "_ETMMsg__path" (VStr name);;
  do fn <- getattr "_ETMMsg__filename";
  setattr "_ETMMsg__filename" (py_or fn (VStr (basename name)));;
  ret file.

(** The normalisation by Telegram type (lines 95-140). *)
Definition normalize (file : nat) : M unit :=
  do ty <- getattr "type_telegram";
  if bool_decide (ty = VTGType TGMsgType.Animation) then load_animation file
  else if bool_decide (ty = VTGType TGMsgType.Sticker) then load_sticker file
  else if bool_decide (ty = VTGType TGMsgType.AnimatedSticker)
  then load_animated_sticker file
  else ret tt.

(** [_load_file] (lines 70-142). *)
Definition _load_file : M unit :=
  do file_id <- getattr "file_id";
  (if truthy file_id then
     do file <- fetch file_id;
     normalize file
   else ret tt);;
  setattr "_ETMMsg__initialized" (VBool true).

(** The accessors behind the properties [file], [path], [filename]
    (lines 144-172). *)
Definition ensure_loaded : M unit :=
  do init <- getattr "_ETMMsg__initialized";
  if negb (truthy init) then _load_file else ret tt.

Definition get_file : M pyval :=
  ensure_loaded;; getattr "_ETMMsg__file".

Definition set_file (value : pyval) : M unit :=
  setattr "_ETMMsg__initialized" (VBool true);;
  setattr "_ETMMsg__file" value.

Definition get_path : M pyval :=
  ensure_loaded;; getattr "_ETMMsg__path".

Definition set_path (value : pyval) : M unit :=
  setattr "_ETMMsg__initialized" (VBool true);;
  setattr "_ETMMsg__path" value.

Definition get_filename : M pyval :=
  ensure_loaded;; getattr "_ETMMsg__filename".

Definition set_filename (value : pyval) : M unit :=
  setattr "_ETMMsg__filename" value.

(** [self.name = v], through the property when [name] is one. *)
Definition assign (name : string) (v : pyval) : M unit :=
  if bool_decide (name = "file") then set_file v
  else if bool_decide (name = "path") then set_path v
  else if bool_decide (name = "filename") then set_filename v
  else setattr name v.

(** [self.name], through the property when [name] is one. *)
Definition attribute (name : string) : M pyval :=
  if bool_decide (name = "file") then get_file
  else if bool_decide (name = "path") then get_path
  else if bool_decide (name = "filename") then get_filename
  else getattr name.

Fixpoint assign_all (l : list (string * pyval)) : M unit :=
  match l with
  | [] => ret tt
  | (name, v) :: r => assign name v;; assign_all r
  end.

(** [__init__] (lines 38-40): the base constructor, then the flag. *)
Definition __init__ : M unit :=
  assign_all (super_init env);;
  setattr "_ETMMsg__initialized" (VBool false).

(** [__getstate__] (lines 42-59).  [del_if_set k] is
    [if state.get(k, None) is not None: del state[k]]. *)
Definition del_if_set (k : string) (st : gmap string pyval) : gmap string pyval :=
  match st !! k with
  | Some v => if is_not_None v then delete k st else st
  | None => st
  end.

(** [if state.get(k, None) is not None: state[k] = utils.chat_id_to_str(chat=state[k])] *)
Definition key_if_set (k : string) (st : gmap string pyval)
  : result (gmap string pyval) :=
  match st !! k with
  | Some (VChat c) => Ok (<[k := VStr (chat_id_to_str env c)]> st)
  | Some VNone | None => Ok st
  | Some _ => Raise (AttributeError "chat_id_to_str")
  end.

Definition getstate_of (d : gmap string pyval) : result (gmap string pyval) :=
  let st := super_getstate env d in
  let st := del_if_set "file" st in
  let st := del_if_set "path" st in
  let st := del_if_set "_ETMMsg__file" st in
  let st := del_if_set "_ETMMsg__path" st in
  match key_if_set "chat" st with
  | Ok st => key_if_set "author" st
  | Raise e => Raise e
  end.

Definition __getstate__ : M (gmap string pyval) :=
  λ s, (getstate_of (self s), s).

(** [__setstate__] (lines 61-62): the base class does the work, on an
    object whose [file], [path] and [filename] are the properties of this
    class. *)
Definition __setstate__ (st : gmap string pyval) : M unit :=
  super_setstate env attribute assign st.

(** [a != b]: decided by [ETMChat.__ne__] on two chats and by the value
    on two plain values; a chat compared with something else is left to
    the chat class and raises here. *)
Definition py_ne (a b : pyval) : M bool :=
  match a, b with
  | VChat c, VChat d => ret (chat_ne env c d)
  | VChat _, _ | _, VChat _ => raise (TypeError "ETMChat compared with another type")
  | _, _ => ret (negb (bool_decide (a = b)))
  end.

(** [v.is_self] *)
Definition attr_is_self (v : pyval) : M bool :=
  match v with
  | VChat c => ret (is_self c)
  | _ => raise (AttributeError "is_self")
  end.

(** [db.add_task(db.set_slave_chat_info, (chat,), {})] *)
Definition add_task_set_slave_chat_info (chat : pyval) : M unit :=
  log (EvAddTask "set_slave_chat_info" [chat]).

(** [pickle] (lines 64-68).  The bytes [pickle.dumps] returns encode the
    class and the dictionary [__getstate__] returns: the record is that
    dictionary. *)
Definition pickle : M (gmap string pyval) :=
  do chat <- getattr "chat";
  add_task_set_slave_chat_info chat;;
  do author <- getattr "author";
  do differ <- py_ne chat author;
  do second <-
    (if differ then
       do me <- attr_is_self author;
       ret (negb me)
     else ret false);
  (if second : bool then add_task_set_slave_chat_info author else ret tt);;
  __getstate__.

(** [put_telegram_file] (lines 194-224).  The loop over the common file
    types: the first attachment that is present is taken. *)
Definition common_file_types
  : list (string * (telegram.Message → option common_file)) :=
  [("animation", λ m, WithMime <$> telegram.animation m);
   ("document", λ m, WithMime <$> telegram.document m);
   ("video", λ m, WithMime <$> telegram.video m);
   ("voice", λ m, WithMime <$> telegram.voice m);
   ("video_note", λ m, NoMime <$> telegram.video_note m)].

Fixpoint scan_common_files
    (types : list (string * (telegram.Message → option common_file)))
    (message : telegram.Message) : M bool :=
  match types with
  | [] => ret false
  | (_, attr) :: rest =>
      match attr message with
      | Some attachment =>
          setattr "file_id" (VStr (common_file_id attachment));;
          do mime <- common_mime_type attachment;
          setattr "mime" (of_opt_str mime);;
          ret true
      | None => scan_common_files rest message
      end
  end.

Definition put_audio (message : telegram.Message) : M unit :=
  match telegram.audio message with
  | None => raise (AttributeError "file_id")
  | Some a =>
      setattr "file_id" (VStr (telegram.audio_file_id a));;
      setattr "mime" (of_opt_str (telegram.audio_mime_type a));;
      do mime <- getattr "mime";
      do ms <- as_str mime;
      set_filename
        (VStr (py_format (telegram.title a) +:+ " - " +:+
               py_format (telegram.performer a) +:+
               py_format (guess_extension_strict env ms)))
  end.

Definition put_sticker (message : telegram.Message) (mime : string) : M unit :=
  match telegram.sticker message with
  | None => raise (AttributeError "file_id")
  | Some st =>
      setattr "file_id" (VStr (telegram.sticker_file_id st));;
      setattr "mime" (VStr mime)
  end.

(** The checks by Telegram type (lines 210-224). *)
Definition specific_checks (message : telegram.Message) : M unit :=
  do ty <- getattr "type_telegram";
  if bool_decide (ty = VTGType TGMsgType.Audio) then put_audio message
  else if bool_decide (ty = VTGType TGMsgType.Sticker)
  then put_sticker message "image/webp"
  else if bool_decide (ty = VTGType TGMsgType.AnimatedSticker)
  then
    put_sticker message "application/json+tgs";;
    setattr "type" (VMsgType MsgType.Animation)
  else
    match last (telegram.photo message) with
    | Some attachment =>
        setattr "file_id" (VStr (telegram.photo_file_id attachment));;
        setattr "mime" (VStr "image/jpeg")
    | None => ret tt
    end.

Definition put_telegram_file (message : telegram.Message) : M unit :=
  setattr "type_telegram" (VTGType (get_msg_type env message));;
  do is_common_file <- scan_common_files common_file_types message;
  if negb is_common_file then specific_checks message else ret tt.

(** [unpickle] (lines 226-238). *)
Definition get_chat_calls (t : list event) : list get_chat_call :=
  omap (λ e, match e with EvGetChat c => Some c | _ => None end) t.

(** One call of [chat_manager.get_chat]. *)
Definition get_chat (chat_manager : ChatObjectCacheManager)
    (module_id chat_id : string) (parent : option string) (build_dummy : bool)
  : M pyval :=
  λ s,
    let call := mkCall module_id chat_id parent build_dummy in
    match chat_manager (get_chat_calls (trace s)) call with
    | Some v => (Ok v, emit (EvGetChat call) s)
    | None => (Raise (ExternalError "get_chat"), emit (EvGetChat call) s)
    end.

(** [utils.chat_id_str_to_id(v)], unpacked into two names. *)
Definition split_chat_key (v : pyval) : M (string * string) :=
  do key <- as_str v;
  or_raise (chat_id_str_to_id env key) "chat_id_str_to_id".

(** [obj.chat and obj.chat.chat_type == ChatType.Group] *)
Definition chat_is_group (chat : pyval) : M bool :=
  if truthy chat then
    match chat with
    | VChat c => ret (bool_decide (chat_type c = ChatType.Group))
    | _ => raise (AttributeError "chat_type")
    end
  else ret false.

(** [pickle.loads] builds the object without calling [__init__] and hands
    the decoded dictionary to [__setstate__]; the object under
    construction is [self] of the state. *)
Definition loads (data : gmap string pyval) : M unit :=
  (λ s, (Ok tt, set_self ∅ s));;
  __setstate__ data.

Definition unpickle (data : gmap string pyval)
    (chat_manager : ChatObjectCacheManager) : M unit :=
  loads data;;
  do chat_key <- getattr "chat";
  do c <- split_chat_key chat_key;
  do author_key <- getattr "author";
  do a <- split_chat_key author_key;
  do chat <- get_chat chat_manager (fst c) (snd c) None true;
  setattr "chat" chat;;
  do chat' <- getattr "chat";
  if bool_decide (fst a = fst c) && bool_decide (snd a = snd c) then
    setattr "author" chat'
  else
    do group <- chat_is_group chat';
    if group : bool then
      do author <- get_chat chat_manager (fst a) (snd a) (Some (snd c)) true;
      setattr "author" author
    else
      do author <- get_chat chat_manager (fst a) (snd a) None true;
      setattr "author" author.

End ETMMsg.

(** ** Reading the resolver's cache and the flag *)

(** The value an attribute read yields when the class gives the default
    [None]: the entry of the instance dictionary, else [None]. *)
Definition stored (name : string) (d : gmap string pyval) : pyval :=
  default VNone (d !! name).

(** The content handle is present: [if self.file_id:] holds. *)
Definition has_content_handle (d : gmap string pyval) : bool :=
  truthy (stored "file_id" d).

(** The three read accessors and the private attribute each returns. *)
Inductive accessor := GetFile | GetPath | GetFilename.

Definition slot (a : accessor) : string :=
  match a with
  | GetFile => "_ETMMsg__file"
  | GetPath => "_ETMMsg__path"
  | GetFilename => "_ETMMsg__filename"
  end.

Definition read (env : Env) (a : accessor) : M pyval :=
  match a with
  | GetFile => get_file env
  | GetPath => get_path env
  | GetFilename => get_filename env
  end.

(** A sequence of reads, collecting what each returns. *)
Fixpoint read_all (env : Env) (l : list accessor) : M (list pyval) :=
  match l with
  | [] => ret []
  | a :: r =>
      do v <- read env a;
      do vs <- read_all env r;
      ret (v :: vs)
  end.

(** Calls of the external transcoder ([ffmpeg], run directly or through
    [write_gif]) in a trace. *)
Definition is_transcode (e : event) : bool :=
  match e with EvPopen _ | EvWriteGif _ _ => true | _ => false end.
Definition transcodes (t : list event) : list event :=
  filter (λ e, is_transcode e = true) t.


(** The record [pickle] returns, when it returns one. *)
Definition pickled (env : Env) (s : state) : gmap string pyval :=
  match fst (pickle env s) with
  | Ok rec => rec
  | Raise _ => ∅
  end.

(** ** Vocabulary of the specification *)

(** The common-file family in its listed order: animation, document,
    video, voice, video note; the first attachment present. *)
Definition first_common_file (m : telegram.Message)
  : option common_file :=
  match telegram.animation m with
  | Some a => Some (WithMime a)
  | None =>
      match telegram.document m with
      | Some a => Some (WithMime a)
      | None =>
          match telegram.video m with
          | Some a => Some (WithMime a)
          | None =>
              match telegram.voice m with
              | Some a => Some (WithMime a)
              | None => NoMime <$> telegram.video_note m
              end
          end
      end
  end.

(** The resolved chat is a group chat. *)
Definition is_group (chat : pyval) : bool :=
  match chat with
  | VChat c => bool_decide (chat_type c = ChatType.Group)
  | _ => false
  end.

(** The tie-break for the author of a deserialized message: no lookup
    when the author key names the chat, a lookup with the chat as parent
    in a group, a plain lookup otherwise. *)
Definition author_lookup (c a : string * string) (chat : pyval)
  : option get_chat_call :=
  if bool_decide (fst a = fst c ∧ snd a = snd c) then None
  else if is_group chat then Some (mkCall (fst a) (snd a) (Some (snd c)) true)
  else Some (mkCall (fst a) (snd a) None true).

(** The message holds a file object and a path. *)
Definition settled (s : state) : Prop :=
  (∃ h, self s !! "_ETMMsg__file" = Some (VFile h)) ∧
  (∃ p, self s !! "_ETMMsg__path" = Some (VStr p)).

(** [m] keeps the invariant [I]. *)
Definition preserves (I : state → Prop) {A} (m : M A) : Prop :=
  ∀ s, I s → I (snd (m s)).

(** ** A concrete environment and concrete messages *)

Module Sample.

(** Splitting a string at the first occurrence of a separator. *)
Fixpoint split_first (sep : ascii) (acc s : string) : option (string * string) :=
  match s with
  | EmptyString => None
  | String c r =>
      if Ascii.eqb c sep then Some (acc, r)
      else split_first sep (acc +:+ String c "") r
  end.

(** Modelled from the spec: [utils.chat_id_to_str] and
    [utils.chat_id_str_to_id] are not in [message.py]; the key is
    ["<network-id>.<chat-id>"] and the parse is its inverse. *)
Definition chat_key (c : ETMChat) : string :=
  module_id c +:+ "." +:+ chat_uid c.
Definition parse_chat_key (s : string) : option (string * string) :=
  split_first "."%char "" s.

(** The suffix from the last dot of the last path component on. *)
Fixpoint ext_from (acc : string) (p : string) : string :=
  match p with
  | EmptyString => acc
  | String c r =>
      if Ascii.eqb c "/"%char then ext_from "" r
      else if Ascii.eqb c "."%char then ext_from (String c r) r
      else ext_from acc r
  end.

Definition extension_of (mime : string) : option string :=
  if bool_decide (mime = "image/gif") then Some ".gif"
  else if bool_decide (mime = "image/webp") then Some ".webp"
  else if bool_decide (mime = "image/jpeg") then Some ".jpg"
  else if bool_decide (mime = "video/mp4") then Some ".mp4"
  else if bool_decide (mime = "audio/mpeg") then Some ".mp3"
  else None.

(** The file [big] decodes to a clip 800 pixels wide, any other to one
    400 pixels wide; a payload that starts with the gzip magic converts
    to a GIF, any other does not. *)
Definition payload_of (file_id : string) : list byte :=
  if bool_decide (file_id = "big") then [x00; x00; x03; x20]
  else if bool_decide (file_id = "broken") then [x7b; x7d]
  else [x1f; x8b; x08].

Definition gif_bytes : list byte := [x47; x49; x46; x38; x39; x61].
Definition png_bytes : list byte := [x89; x50; x4e; x47].

Definition msg_type_of (m : telegram.Message) : TGMsgType.t :=
  match telegram.sticker m with
  | Some st => if telegram.is_animated st then TGMsgType.AnimatedSticker
               else TGMsgType.Sticker
  | None =>
      match telegram.audio m with
      | Some _ => TGMsgType.Audio
      | None =>
          match telegram.animation m with
          | Some _ => TGMsgType.Animation
          | None => TGMsgType.Other "Text"
          end
      end
  end.

(** The base class of the sample hands out the instance dictionary as
    its state; it restores it by an update and then looks at
    [self.path]. *)
Definition env : Env := {|
  bot_get_file fid := Some ("documents/" +:+ fid);
  file_meta_download fid := Some (payload_of fid);
  splitext_ext p := ext_from "" p;
  guess_type p := None;
  guess_extension := extension_of;
  guess_extension_strict := extension_of;
  magic_from_file content := Some (VStr "application/octet-stream");
  bytes_decode b := Some (String.string_of_list_byte b);
  tmp_path n := "/tmp/tmp" +:+ pretty n;
  video_file_clip content :=
    Some (if bool_decide (content = [x00; x00; x03; x20])
          then mkClip 800 600 else mkClip 400 300);
  popen_ffmpeg argv content := Some gif_bytes;
  write_gif content := Some gif_bytes;
  image_to_png content := Some png_bytes;
  convert_tgs_to_gif content :=
    match content with
    | x1f :: x8b :: _ => Some gif_bytes
    | _ => None
    end;
  tgs_partial_output content := [];
  tgs_input_pos content := length content;
  chat_id_to_str := chat_key;
  chat_id_str_to_id := parse_chat_key;
  chat_ne c d :=
    negb (bool_decide (module_id c = module_id d)
          && bool_decide (chat_uid c = chat_uid d));
  get_msg_type := msg_type_of;
  super_getstate d := d;
  super_setstate read write st :=
    (λ s, (Ok tt, set_self (st ∪ self s) s));;
    do path <- read "path";
    ret tt;
  super_init :=
    [("attributes", VNone); ("author", VNone); ("chat", VNone);
     ("deliver_to", VNone); ("edit", VBool false); ("file", VNone);
     ("filename", VNone); ("is_system", VBool false); ("mime", VNone);
     ("path", VNone); ("text", VStr ""); ("uid", VNone)];
  super_class_attr name := None
|}.

(** A directory that fabricates a new chat object on every call; the
    chat ["room"] is a group. *)
Definition chat_manager : ChatObjectCacheManager :=
  λ history call,
    Some (VChat (mkChat (length history) (gc_module call) (gc_id call)
                        (if bool_decide (gc_id call = "room")
                         then ChatType.Group else ChatType.Other "User")
                        false)).

Definition empty_state : state := mkState ∅ [] [].

(** [ETMMsg()] *)
Definition new_msg : state := snd (__init__ env empty_state).

Definition no_message : telegram.Message :=
  telegram.mkMessage None None None None None None None [].

(** A vector sticker, a static sticker and two animations as Telegram
    delivers them. *)
Definition tgs (file_id : string) : telegram.Message :=
  telegram.mkMessage None None None None None None
    (Some (telegram.mkSticker file_id true)) [].

Definition gif (file_id : string) : telegram.Message :=
  telegram.mkMessage (Some (telegram.mkAttachment file_id (Some "video/mp4")))
    None None None None None None [].

(** [m = ETMMsg(); m.put_telegram_file(message)], delivered to [channel]. *)
Definition received (message : telegram.Message) (channel : string) : state :=
  snd ((put_telegram_file env message;;
        setattr "deliver_to" (VChannel channel)) new_msg).

Definition alice : ETMChat := mkChat 7 "a" "2" (ChatType.Other "User") false.
Definition room : ETMChat := mkChat 8 "a" "room" ChatType.Group false.
Definition myself : ETMChat := mkChat 9 "a" "me" (ChatType.Other "User") true.

(** [m.chat = chat; m.author = author] *)
Definition sent (chat author : ETMChat) (s : state) : state :=
  snd ((setattr "chat" (VChat chat);; setattr "author" (VChat author)) s).

(** An animation sent by [alice] to [room], before and after
    [m.get_file()]. *)
Definition unresolved : state :=
  sent room alice (received (gif "big") "blueset.wechat").
Definition resolved : state := snd (get_file env unresolved).

(** [m = ETMMsg(); m.path = "/tmp/x"]: a message without a content
    handle whose path was written by a caller. *)
Definition overridden : state := snd (set_path (VStr "/tmp/x") new_msg).

End Sample.

(** ** What a computation may emit *)

(** Every run of [m] only appends to the trace, and only events
    satisfying [P]. *)
Definition emits (P : event → Prop) {A} (m : M A) : Prop :=
  ∀ s, ∃ t : list event, trace (snd (m s)) = (trace s ++ t)%list ∧ Forall P t.

Definition any_event (e : event) : Prop := True.
(** The event is a content sniff by [magic]. *)
Definition sniff (e : event) : Prop := ∃ path, e = EvMagic path.

(** ** [from_efbmsg] *)

(** [isinstance(v, ETMChat)] *)
Definition is_ETMChat (v : pyval) : bool :=
  match v with VChat _ => true | _ => false end.

(** The dictionaries of reactions are objects of their own, shared by
    every message that refers to them: [VObject addr] refers to the
    dictionary stored at [addr], from a reaction name to the list of the
    chats that reacted with it, in insertion order. *)
Definition reactions : Type := list (string * list pyval).
Definition heap : Type := gmap nat reactions.

Section FromEfbmsg.
Context (env : Env).
(** [ETMChat(db=db, chat=v)], [None] when the constructor raises. *)
Context (etm_chat : pyval → option ETMChat).

(** [if not isinstance(target.name, ETMChat):
       target.name = ETMChat(db=db, chat=target.name)] (lines 183-186) *)
Definition ensure_ETMChat (name : string) : M unit :=
  do v <- getattr env name;
  if negb (is_ETMChat v) then
    do c <- or_raise (etm_chat v) "ETMChat";
    setattr name (VChat c)
  else ret tt.

(** [list(map(lambda a: ETMChat(db=db, chat=a), l))] *)
Definition map_ETMChat (l : list pyval) : option (list pyval) :=
  mapM (λ a, VChat <$> etm_chat a) l.

(** The loop over the reactions (lines 188-191), on the content of the
    dictionary.  It stops at the first constructor that raises; the
    lists replaced before stay replaced. *)
Fixpoint convert_reactions (r : reactions) : result unit * reactions :=
  match r with
  | [] => (Ok tt, [])
  | (i, js) :: rest =>
      if existsb (λ j, negb (is_ETMChat j)) js then
        match map_ETMChat js with
        | Some js' =>
            let '(res, rest') := convert_reactions rest in
            (res, (i, js') :: rest')
        | None => (Raise (ExternalError "ETMChat"), (i, js) :: rest)
        end
      else
        let '(res, rest') := convert_reactions rest in
        (res, (i, js) :: rest')
  end.

(** Lines 181-187: the new message takes over the instance dictionary of
    the source, its chat and its author become [ETMChat] objects, and
    [target.reactions] is read. *)
Definition convert_target (source : gmap string pyval) : M pyval :=
  (λ s, (Ok tt, set_self ∅ s));;
  __init__ env;;
  (λ s, (Ok tt, set_self (source ∪ self s) s));;
  ensure_ETMChat "chat";;
  ensure_ETMChat "author";;
  getattr env "reactions".

(** [from_efbmsg] (lines 179-192); the message returned is [self] of the
    final state. *)
Definition from_efbmsg (source : gmap string pyval) (h : heap)
  : state → result unit * state * heap :=
  λ s,
    match convert_target source s with
    | (Raise e, s1) => (Raise e, s1, h)
    | (Ok (VObject addr), s1) =>
        match h !! addr with
        | Some r =>
            let '(res, r') := convert_reactions r in
            (res, s1, <[addr := r']> h)
        | None => (Ok tt, s1, h)
        end
    | (Ok _, s1) => (Ok tt, s1, h)
    end.

End FromEfbmsg.

(** A message as a slave channel hands it over: its chat and one of the
    chats that reacted are objects of the slave channel. *)
Module SampleSource.

Definition source : gmap string pyval :=
  <["chat" := VObject 1]>
    (<["author" := VChat Sample.alice]>
       (<["reactions" := VObject 5]>
          (<["file" := VFile 0]>
             (<["path" := VStr "/srv/slave/cat.png"]>
                (<["filename" := VStr "cat.png"]> ∅))))).

Definition reacted : heap :=
  <[5%nat := [("like", [VObject 2; VChat Sample.alice]);
              ("laugh", [VChat Sample.room])]]> ∅.

(** Modelled from the spec: [ETMChat] is not in [message.py]; the
    constructor wraps a chat of a slave channel, copies an [ETMChat] and
    raises on anything else. *)
Definition etm_chat (v : pyval) : option ETMChat :=
  match v with
  | VObject n => Some (mkChat (100 + n) "slave" (pretty n) (ChatType.Other "User") false)
  | VChat c => Some c
  | _ => None
  end.

End SampleSource.


(** * Properties *)

(** ** The monad *)

Lemma bind_inv_ok {A B} (m : M A) (k : A → M B) s b s' :
  bind m k s = (Ok b, s') →
  ∃ a s1, m s = (Ok a, s1) ∧ k a s1 = (Ok b, s').
Proof.
  unfold bind. destruct (m s) as [[a|e] s1]; [eauto | discriminate].
Qed.

Lemma bind_run {A B} (m : M A) (k : A → M B) s a s1 :
  m s = (Ok a, s1) → bind m k s = k a s1.
Proof. intros E. unfold bind. by rewrite E. Qed.

Lemma bind_snd_raise {A B} (m : M A) (k : A → M B) s e s1 :
  m s = (Raise e, s1) → bind m k s = (Raise e, s1).
Proof. intros E. unfold bind. by rewrite E. Qed.

(** ** Events emitted: the rules *)

Section Emits.
Context (env : Env) (P : event → Prop).

Lemma emits_pure {A} (m : M A) :
  (∀ s, snd (m s) = s ∨ trace (snd (m s)) = trace s) → emits P m.
Proof.
  intros H s. exists []. rewrite app_nil_r. split; [|constructor].
  destruct (H s) as [-> | ->]; done.
Qed.

Lemma emits_ret {A} (a : A) : emits P (ret a).
Proof. apply emits_pure; auto. Qed.

Lemma emits_raise {A} e : emits P (@raise A e).
Proof. apply emits_pure; auto. Qed.

Lemma emits_bind {A B} (m : M A) (k : A → M B) :
  emits P m → (∀ a, emits P (k a)) → emits P (bind m k).
Proof.
  intros Hm Hk s. unfold bind. destruct (Hm s) as (t1 & E1 & F1).
  destruct (m s) as [[a|e] s1]; simpl in *.
  - destruct (Hk a s1) as (t2 & E2 & F2). exists (t1 ++ t2)%list.
    rewrite E2, E1, app_assoc. split; [done | by apply Forall_app].
  - by exists t1.
Qed.

Lemma emits_log e : P e → emits P (log e).
Proof.
  intros H s. exists [e]. split; [done | by repeat constructor].
Qed.

Lemma emits_getattr k : emits P (getattr env k).
Proof.
  apply emits_pure. intros s. left. unfold getattr. by repeat case_match.
Qed.

Lemma emits_setattr k v : emits P (setattr k v).
Proof. apply emits_pure; auto. Qed.

Lemma emits_with_file {A} h (k : tmpfile → M A) :
  (∀ f, emits P (k f)) → emits P (with_file h k).
Proof.
  intros H s. unfold with_file. destruct (fs s !! h) as [f|].
  - apply H.
  - exists []. rewrite app_nil_r. by split.
Qed.

Lemma emits_update_file h g : emits P (update_file h g).
Proof. apply emits_with_file. intros f. apply emits_pure; auto. Qed.

Lemma emits_or_raise {A} (o : option A) w : emits P (or_raise o w).
Proof. destruct o; [apply emits_ret | apply emits_raise]. Qed.

Lemma emits_as_str v : emits P (as_str v).
Proof. destruct v; first [apply emits_ret | apply emits_raise]. Qed.

Lemma emits_py_add_str v x : emits P (py_add_str v x).
Proof. destruct v; first [apply emits_ret | apply emits_raise]. Qed.

Lemma emits_NamedTemporaryFile v : emits P (NamedTemporaryFile env v).
Proof. apply emits_pure; auto. Qed.

End Emits.

Ltac emits_step :=
  first
    [ apply emits_ret | apply emits_raise | apply emits_getattr
    | apply emits_setattr | apply emits_update_file | apply emits_or_raise
    | apply emits_as_str | apply emits_py_add_str
    | apply emits_NamedTemporaryFile
    | apply emits_with_file; intros ?
    | apply emits_log; done
    | apply emits_bind; [| intros ?]
    | match goal with
      | |- emits _ (if ?c then _ else _) => destruct c
      | |- emits _ (match ?x with _ => _ end) => destruct x
      end ].

Ltac emits_auto := repeat emits_step.

(** ** Lists of temporary files *)

Lemma lookup_snoc_here {A} (l r : list A) x : (l ++ x :: r)%list !! length l = Some x.
Proof. by apply list_lookup_middle. Qed.

Lemma lookup_snoc_next {A} (l r : list A) x y :
  (l ++ x :: y :: r)%list !! S (length l) = Some y.
Proof.
  replace (l ++ x :: y :: r)%list with ((l ++ [x]) ++ y :: r)%list
    by (by rewrite <- app_assoc).
  apply list_lookup_middle. rewrite length_app. simpl. lia.
Qed.

Lemma insert_snoc_here {A} (l r : list A) x y :
  <[length l := y]> (l ++ x :: r)%list = (l ++ y :: r)%list.
Proof. induction l; simpl; [done | by f_equal]. Qed.

Lemma insert_snoc_next {A} (l r : list A) x y z :
  <[S (length l) := z]> (l ++ x :: y :: r)%list = (l ++ x :: z :: r)%list.
Proof. induction l; simpl; [done | by f_equal]. Qed.

(** Symbolic execution of a successful run, one bind at a time. *)
Tactic Notation "mstep" hyp(Hrun) "as" ident(res) ident(Hstep) :=
  let s := fresh "x" in
  apply bind_inv_ok in Hrun as (res & s & Hstep & Hrun).

Ltac file_step E :=
  unfold file_name, file_close, file_rest, file_content, file_seek,
    file_write, file_replace, update_file, with_file in E;
  cbn [fs set_fs emit self trace set_self] in E;
  rewrite ?lookup_snoc_here, ?lookup_snoc_next in E;
  cbv [ret] in E;
  cbn [fs set_fs emit self trace set_self f_name f_data f_pos f_closed
       length Nat.add firstn skipn app] in E;
  rewrite ?insert_snoc_here, ?insert_snoc_next, ?drop_0 in E.

Ltac norm H :=
  cbv [set_fs emit set_self] in H; cbn [self fs trace] in H.

Ltac normg :=
  cbv [set_fs emit set_self]; cbn [self fs trace fst snd].

Ltac pure_step E :=
  cbv [log setattr ret NamedTemporaryFile add_task_set_slave_chat_info] in E;
  cbn [fs set_fs emit self trace set_self] in E;
  simplify_eq.

Section Resolver.
Context (env : Env).



(** *** Primitive steps *)

Lemma getattr_some k v s : self s !! k = Some v → getattr env k s = (Ok v, s).
Proof. intros H. unfold getattr. by rewrite H. Qed.

Lemma getattr_stored k s :
  class_attr env k = Some VNone →
  getattr env k s = (Ok (stored k (self s)), s).
Proof.
  intros H. unfold getattr, stored.
  destruct (self s !! k); [done|]. by rewrite H.
Qed.

Lemma getattr_inv k s r s1 : getattr env k s = (r, s1) → s1 = s.
Proof. unfold getattr. repeat case_match; congruence. Qed.

Lemma as_str_inv v s x s1 : as_str v s = (Ok x, s1) → v = VStr x ∧ s1 = s.
Proof. destruct v; cbv [as_str ret raise]; intros; by simplify_eq. Qed.

Lemma or_raise_inv {A} (o : option A) w s a s1 :
  or_raise o w s = (Ok a, s1) → o = Some a ∧ s1 = s.
Proof. destruct o; cbv [or_raise ret raise]; intros; by simplify_eq. Qed.

Lemma fetch_ok v h s s1 :
  fetch env v s = (Ok h, s1) →
  ∃ fid name payload mime t,
    v = VStr fid ∧ h = length (fs s) ∧
    file_meta_download env fid = Some payload ∧
    fs s1 = (fs s ++ [mkTmp name payload 0 false])%list ∧
    self s1 =
      <["_ETMMsg__filename" :=
          py_or (stored "_ETMMsg__filename" (self s)) (VStr (basename name))]>
        (<["_ETMMsg__path" := VStr name]>
           (<["_ETMMsg__file" := VFile h]> (<["mime" := mime]> (self s)))) ∧
    trace s1 = (trace s ++ EvBotGetFile fid :: EvDownload fid :: t)%list ∧
    Forall sniff t.
Proof.
  unfold fetch. destruct s as [d l t0]. intros H.
  mstep H as fid E. apply as_str_inv in E as [-> ->].
  mstep H as u E. pure_step E.
  mstep H as file_path E. apply or_raise_inv in E as [Hmeta ->].
  mstep H as mime0 E. apply getattr_inv in E as ->.
  mstep H as em E.
  assert (x = emit (EvBotGetFile fid) (mkState d l t0)) as ->.
  { destruct (negb (truthy mime0)); [by injection E|].
    mstep E as ms E1. apply as_str_inv in E1 as [_ ->]. by injection E. }
  clear E.
  mstep H as file E. pure_step E.
  mstep H as full_path E. file_step E. pure_step E.
  mstep H as u1 E. pure_step E.
  mstep H as payload E. apply or_raise_inv in E as [Hpay ->].
  mstep H as u2 E. file_step E. pure_step E.
  mstep H as u3 E. file_step E. pure_step E.
  rewrite drop_nil, app_nil_r in H. norm H.
  remember (tmp_path env (length l) +:+ _) as name eqn:Hname in H.
  clear Hname.
  mstep H as mime E.
  assert (∃ t, x = mkState d (l ++ [mkTmp name payload 0 false])
                     ((t0 ++ [EvBotGetFile fid]) ++ [EvDownload fid] ++ t)
               ∧ Forall sniff t) as (t & -> & Ht).
  { destruct (truthy em.2).
    - pure_step E. exists []. by rewrite app_nil_r.
    - mstep E as u4 E1. pure_step E1.
      mstep E as content E1. file_step E1. pure_step E1.
      apply or_raise_inv in E as [_ ->].
      cbv [set_fs emit set_self]; cbn [self fs trace].
      exists [EvMagic name].
      split; [by rewrite <- !app_assoc | by repeat econstructor]. }
  clear E.
  mstep H as mime1 E.
  assert (x = mkState d (l ++ [mkTmp name payload 0 false])
                ((t0 ++ [EvBotGetFile fid]) ++ [EvDownload fid] ++ t)) as ->.
  { destruct mime; try (by injection E).
    mstep E as dd E1. apply or_raise_inv in E1 as [_ ->]. by injection E. }
  clear E.
  mstep H as u5 E. pure_step E.
  mstep H as u6 E. pure_step E.
  mstep H as name1 E. file_step E. pure_step E.
  mstep H as u7 E. pure_step E.
  mstep H as fn E.
  rewrite getattr_stored in E by reflexivity. pure_step E.
  mstep H as u8 E. pure_step E. pure_step H.
  exists fid, name1, payload, mime1, t.
  cbv [set_fs emit set_self]; cbn [self fs trace].
  unfold stored. rewrite !lookup_insert_ne by done.
  repeat split; try done.
  by rewrite <- !app_assoc.
Qed.


(** *** Counting downloads *)




(** *** The flag and the accessors *)

Lemma load_file_no_handle s :
  has_content_handle (self s) = false →
  _load_file env s =
    (Ok tt, set_self (<["_ETMMsg__initialized" := VBool true]> (self s)) s).
Proof.
  intros Hh. unfold _load_file.
  erewrite bind_run by (by apply getattr_stored).
  unfold has_content_handle in Hh. by rewrite Hh.
Qed.

Lemma load_file_sets_flag s s1 :
  _load_file env s = (Ok tt, s1) →
  self s1 !! "_ETMMsg__initialized" = Some (VBool true).
Proof.
  unfold _load_file. intros H. mstep H as file_id E.
  mstep H as u E1. pure_step H.
  normg. by rewrite lookup_insert_eq.
Qed.

Lemma ensure_loaded_resolved s flag :
  self s !! "_ETMMsg__initialized" = Some flag → truthy flag = true →
  ensure_loaded env s = (Ok tt, s).
Proof.
  intros Hf Ht. unfold ensure_loaded.
  erewrite bind_run by (by apply getattr_some). by rewrite Ht.
Qed.

Lemma ensure_loaded_unresolved s flag :
  self s !! "_ETMMsg__initialized" = Some flag → truthy flag = false →
  ensure_loaded env s = _load_file env s.
Proof.
  intros Hf Ht. unfold ensure_loaded.
  erewrite bind_run by (by apply getattr_some). by rewrite Ht.
Qed.

Lemma read_unfold a s :
  read env a s = bind (ensure_loaded env) (λ _, getattr env (slot a)) s.
Proof. by destruct a. Qed.

Lemma getattr_slot a s :
  getattr env (slot a) s = (Ok (stored (slot a) (self s)), s).
Proof. destruct a; by apply getattr_stored. Qed.

Lemma read_resolved s flag a :
  self s !! "_ETMMsg__initialized" = Some flag → truthy flag = true →
  read env a s = (Ok (stored (slot a) (self s)), s).
Proof.
  intros Hf Ht. rewrite read_unfold.
  erewrite bind_run by (by eapply ensure_loaded_resolved).
  apply getattr_slot.
Qed.

Lemma read_all_resolved s flag l :
  self s !! "_ETMMsg__initialized" = Some flag → truthy flag = true →
  read_all env l s = (Ok (map (λ a, stored (slot a) (self s)) l), s).
Proof.
  intros Hf Ht. induction l as [|a l IH]; [done|]. simpl.
  erewrite bind_run by (by eapply read_resolved).
  by erewrite bind_run by exact IH.
Qed.


End Resolver.

(** ** The accessors: resolution at most once *)

Section Accessors.
Context (env : Env).

Lemma stored_insert_ne k k' v d :
  k ≠ k' → stored k' (<[k := v]> d) = stored k' d.
Proof. intros Hne. unfold stored. by rewrite lookup_insert_ne. Qed.

Lemma slot_not_flag a : "_ETMMsg__initialized" ≠ slot a.
Proof. by destruct a. Qed.

Lemma read_no_handle s flag a :
  self s !! "_ETMMsg__initialized" = Some flag →
  has_content_handle (self s) = false →
  ∃ s1, read env a s = (Ok (stored (slot a) (self s)), s1) ∧
        trace s1 = trace s ∧ fs s1 = fs s.
Proof.
  intros Hf Hh. destruct (truthy flag) eqn:Ht.
  - exists s. by erewrite read_resolved.
  - eexists. rewrite read_unfold.
    erewrite bind_run
      by (erewrite ensure_loaded_unresolved by done; by apply load_file_no_handle).
    rewrite getattr_slot. normg.
    by rewrite stored_insert_ne by apply slot_not_flag.
Qed.

Lemma emits_prefix {A B} (m : M A) (k : A → M B) s e t :
  trace (snd (m s)) = (trace s ++ e :: t)%list →
  (∀ a, emits any_event (k a)) →
  ∃ t1, trace (snd (bind m k s)) = (trace s ++ e :: t1)%list.
Proof.
  intros Hm Hk. unfold bind. destruct (m s) as [[a|x] s1]; simpl in *.
  - destruct (Hk a s1) as (t2 & E2 & _). exists (t ++ t2)%list.
    by rewrite E2, Hm, <- app_assoc.
  - by exists t.
Qed.

Lemma fetch_starts s fid :
  ∃ t, trace (snd (fetch env (VStr fid) s)) = (trace s ++ EvBotGetFile fid :: t)%list.
Proof.
  unfold fetch. erewrite bind_run by reflexivity.
  apply emits_prefix with (t := []); [done|].
  intros _.
  unfold file_name, file_close, file_rest, file_content, file_seek,
    file_write, file_replace.
  emits_auto.
Qed.

Lemma normalize_emits file : emits any_event (normalize env file).
Proof.
  unfold normalize, load_animation, load_sticker, load_animated_sticker,
    deliver_to_channel_id,
    file_name, file_close, file_rest, file_content, file_seek,
    file_write, file_replace.
  emits_auto.
Qed.

Lemma load_file_starts s fid :
  self s !! "file_id" = Some (VStr fid) → fid ≠ "" →
  ∃ t, trace (snd (_load_file env s)) = (trace s ++ EvBotGetFile fid :: t)%list.
Proof.
  intros Hfid Hne. unfold _load_file.
  erewrite bind_run by (by apply getattr_some).
  assert (truthy (VStr fid) = true) as ->.
  { simpl. by rewrite bool_decide_eq_false_2. }
  destruct (fetch_starts s fid) as (t & Ht).
  destruct (emits_prefix _ (normalize env) s _ _ Ht normalize_emits)
    as (t1 & Ht1).
  eapply emits_prefix; [exact Ht1 | intros; emits_auto].
Qed.

Lemma read_starts s fid a :
  self s !! "_ETMMsg__initialized" = Some (VBool false) →
  self s !! "file_id" = Some (VStr fid) → fid ≠ "" →
  ∃ t, trace (snd (read env a s)) = (trace s ++ EvBotGetFile fid :: t)%list.
Proof.
  intros Hf Hfid Hne. rewrite read_unfold.
  destruct (load_file_starts s fid Hfid Hne) as (t & Ht).
  eapply emits_prefix; [|intros; emits_auto].
  erewrite ensure_loaded_unresolved by done. exact Ht.
Qed.

(** [__init__] never raises and leaves the flag [False], whatever the
    base constructor assigns. *)
Lemma assign_all_ok l s : fst (assign_all l s) = Ok tt.
Proof.
  revert s. induction l as [|[name v] l IH]; intros s; [done|].
  simpl. unfold bind.
  assert (∃ s1, assign name v s = (Ok tt, s1)) as [s1 ->].
  { unfold assign, set_file, set_path, set_filename, setattr, bind.
    repeat case_bool_decide; eauto. }
  apply IH.
Qed.

Lemma init_unresolved s :
  fst (__init__ env s) = Ok tt ∧
  self (snd (__init__ env s)) !! "_ETMMsg__initialized" = Some (VBool false).
Proof.
  unfold __init__, bind. pose proof (assign_all_ok (super_init env) s) as H.
  destruct (assign_all (super_init env) s) as [[[]|e] s1]; simpl in H; [|done].
  simpl. by rewrite lookup_insert_eq.
Qed.

End Accessors.




(** C5 (amended). For a message without a content handle, each of
    [get_file()], [get_path()] and [get_filename()] makes no remote call
    and returns the value stored for it: [None] when no caller wrote one,
    otherwise the value that was written. *)
Theorem no_handle_reads_stored_value (env : Env) (s : state) (flag : pyval)
    (a : accessor) :
  self s !! "_ETMMsg__initialized" = Some flag →
  has_content_handle (self s) = false →
  trace (snd (read env a s)) = trace s ∧
  fst (read env a s) = Ok (stored (slot a) (self s)) ∧
  (self s !! slot a = None ∨ self s !! slot a = Some VNone →
   fst (read env a s) = Ok VNone).
Proof.
  intros Hf Hh.
  destruct (read_no_handle env s flag a Hf Hh) as (s1 & -> & Ht & _).
  repeat split; [done|]. simpl. unfold stored. by intros [-> | ->].
Qed.

Lemma no_handle_reads_stored_value_witness :
  trace (snd (read Sample.env GetFile Sample.new_msg)) = trace Sample.new_msg ∧
  fst (read Sample.env GetFile Sample.new_msg) =
    Ok (stored (slot GetFile) (self Sample.new_msg)) ∧
  (self Sample.new_msg !! slot GetFile = None
   ∨ self Sample.new_msg !! slot GetFile = Some VNone →
   fst (read Sample.env GetFile Sample.new_msg) = Ok VNone).
Proof.
  apply (no_handle_reads_stored_value Sample.env Sample.new_msg (VBool false)
           GetFile); vm_compute; reflexivity.
Defined.

(** C5 as stated fails: the message [m = ETMMsg(); m.path = "/tmp/x"] has
    no content handle, and [get_path()] returns ["/tmp/x"], not [None]. *)
Lemma no_handle_read_may_return_value :
  ¬ (∀ (s : state) (a : accessor),
       is_Some (self s !! "_ETMMsg__initialized") →
       has_content_handle (self s) = false →
       fst (read Sample.env a s) = Ok VNone).
Proof.
  intros H. specialize (H Sample.overridden GetPath).
  assert (fst (read Sample.env GetPath Sample.overridden) = Ok (VStr "/tmp/x"))
    as Hv by (vm_compute; reflexivity).
  rewrite H in Hv; [discriminate | by vm_compute; eexists | by vm_compute].
Qed.

(** C8. On a message with a content handle on which nothing was read
    yet: after [set_path(p)] every read of the path returns [p] and no
    sequence of reads changes the trace, so nothing is ever downloaded;
    [set_filename] leaves the flag as it is, and a read that follows it
    still runs the resolution, which calls the remote client. *)
Theorem set_path_suppresses_resolution (env : Env) (s : state) (p v : pyval)
    (fid : string) (l : list accessor) :
  self s !! "_ETMMsg__initialized" = Some (VBool false) →
  self s !! "file_id" = Some (VStr fid) → fid ≠ "" →
  let s1 := snd (set_path p s) in
  let s2 := snd (set_filename v s) in
  (get_path env s1 = (Ok p, s1) ∧
   read_all env l s1 = (Ok (map (λ a, stored (slot a) (self s1)) l), s1) ∧
   stored "_ETMMsg__path" (self s1) = p ∧
   trace s1 = trace s) ∧
  (self s2 !! "_ETMMsg__initialized" = Some (VBool false) ∧
   ∀ a, ∃ t, trace (snd (read env a s2))
             = (trace s ++ EvBotGetFile fid :: t)%list).
Proof.
  intros Hf Hfid Hne s1 s2.
  assert (self s1 !! "_ETMMsg__initialized" = Some (VBool true)) as Hf1.
  { subst s1. cbv [set_path bind setattr]. normg.
    by rewrite lookup_insert_ne, lookup_insert_eq. }
  assert (stored "_ETMMsg__path" (self s1) = p) as Hp.
  { subst s1. cbv [set_path bind setattr]. normg.
    unfold stored. by rewrite lookup_insert_eq. }
  split; [repeat split|split].
  - change (get_path env s1) with (read env GetPath s1).
    erewrite read_resolved by done. simpl slot. by rewrite Hp.
  - by eapply read_all_resolved.
  - done.
  - subst s2. cbv [set_filename setattr]. normg. by rewrite lookup_insert_ne.
  - intros a.
    assert (trace s2 = trace s) as <- by reflexivity.
    apply read_starts; [| |done]; subst s2; cbv [set_filename setattr]; normg;
      by rewrite lookup_insert_ne.
Qed.

Lemma set_path_suppresses_resolution_witness :
  let s := Sample.received (Sample.gif "big") "blueset.wechat" in
  let s1 := snd (set_path (VStr "/tmp/x") s) in
  let s2 := snd (set_filename (VStr "cat.gif") s) in
  (get_path Sample.env s1 = (Ok (VStr "/tmp/x"), s1) ∧
   read_all Sample.env [GetPath; GetFile; GetPath] s1 =
     (Ok (map (λ a, stored (slot a) (self s1)) [GetPath; GetFile; GetPath]), s1) ∧
   stored "_ETMMsg__path" (self s1) = VStr "/tmp/x" ∧
   trace s1 = trace s) ∧
  (self s2 !! "_ETMMsg__initialized" = Some (VBool false) ∧
   ∀ a, ∃ t, trace (snd (read Sample.env a s2))
             = (trace s ++ EvBotGetFile "big" :: t)%list).
Proof.
  intros s.
  apply (set_path_suppresses_resolution Sample.env s (VStr "/tmp/x")
           (VStr "cat.gif") "big" [GetPath; GetFile; GetPath]);
    [vm_compute; reflexivity | vm_compute; reflexivity | discriminate].
Defined.

(** ** Invariants kept by a computation: the rules *)

Section Preserves.
Context (env : Env) (I : state → Prop).

Lemma preserves_ret {A} (a : A) : preserves I (ret a).
Proof. by intros s. Qed.

Lemma preserves_raise {A} e : preserves I (@raise A e).
Proof. by intros s. Qed.

Lemma preserves_bind {A B} (m : M A) (k : A → M B) :
  preserves I m → (∀ a, preserves I (k a)) → preserves I (bind m k).
Proof.
  intros Hm Hk s Hs. unfold bind. specialize (Hm s Hs).
  destruct (m s) as [[a|e] s1]; simpl in *; [by apply Hk | done].
Qed.

Lemma preserves_getattr k : preserves I (getattr env k).
Proof. intros s Hs. unfold getattr. by repeat case_match. Qed.

Lemma preserves_or_raise {A} (o : option A) w : preserves I (or_raise o w).
Proof. destruct o; [apply preserves_ret | apply preserves_raise]. Qed.

Lemma preserves_as_str v : preserves I (as_str v).
Proof. destruct v; first [apply preserves_ret | apply preserves_raise]. Qed.

Lemma preserves_py_add_str v x : preserves I (py_add_str v x).
Proof. destruct v; first [apply preserves_ret | apply preserves_raise]. Qed.

Lemma preserves_with_file {A} h (k : tmpfile → M A) :
  (∀ f, preserves I (k f)) → preserves I (with_file h k).
Proof.
  intros H s Hs. unfold with_file. destruct (fs s !! h); [by apply H | done].
Qed.

End Preserves.

Section Settled.
Context (env : Env).

Lemma settled_self s s1 : self s1 = self s → settled s → settled s1.
Proof. unfold settled. by intros ->. Qed.

Lemma preserves_settled_log e : preserves settled (log e).
Proof. intros s. by apply settled_self. Qed.

Lemma preserves_settled_update_file h g : preserves settled (update_file h g).
Proof.
  apply preserves_with_file. intros f s. by apply settled_self.
Qed.

Lemma preserves_settled_tmp v : preserves settled (NamedTemporaryFile env v).
Proof. intros s. by apply settled_self. Qed.

Lemma preserves_settled_setattr k v :
  (k = "_ETMMsg__file" → ∃ h, v = VFile h) →
  (k = "_ETMMsg__path" → ∃ p, v = VStr p) →
  preserves settled (setattr k v).
Proof.
  intros Hfile Hpath s [[h Hh] [p Hp]]. unfold settled. simpl. split.
  - destruct (decide (k = "_ETMMsg__file")) as [->|Hne].
    + destruct Hfile as [h1 ->]; [done|]. exists h1. by rewrite lookup_insert_eq.
    + exists h. by rewrite lookup_insert_ne.
  - destruct (decide (k = "_ETMMsg__path")) as [->|Hne].
    + destruct Hpath as [p1 ->]; [done|]. exists p1. by rewrite lookup_insert_eq.
    + exists p. by rewrite lookup_insert_ne.
Qed.

End Settled.

Ltac settled_step :=
  first
    [ apply preserves_ret | apply preserves_raise | apply preserves_getattr
    | apply preserves_or_raise | apply preserves_as_str
    | apply preserves_py_add_str | apply preserves_settled_log
    | apply preserves_settled_update_file | apply preserves_settled_tmp
    | apply preserves_settled_setattr;
      intros ?; first [discriminate | eexists; reflexivity]
    | apply preserves_with_file; intros ?
    | apply preserves_bind; [| intros ?]
    | match goal with
      | |- preserves _ (if ?c then _ else _) => destruct c
      | |- preserves _ (match ?x with _ => _ end) => destruct x
      end ].

Section Codec.
Context (env : Env).

Lemma normalize_settled file : preserves settled (normalize env file).
Proof.
  unfold normalize, load_animation, load_sticker, load_animated_sticker,
    deliver_to_channel_id,
    file_name, file_close, file_rest, file_content, file_seek,
    file_write, file_replace.
  repeat settled_step.
Qed.

Lemma load_file_settled s s1 :
  has_content_handle (self s) = true →
  _load_file env s = (Ok tt, s1) → settled s1.
Proof.
  intros Hh H. unfold _load_file in H.
  mstep H as file_id E. rewrite getattr_stored in E by reflexivity.
  pure_step E. unfold has_content_handle in Hh. rewrite Hh in H.
  mstep H as u E. pure_step H.
  mstep E as file E1. apply fetch_ok in E1
    as (fid & name & payload & mime & t & _ & _ & _ & _ & Hself & _ & _).
  apply (preserves_settled_setattr "_ETMMsg__initialized" (VBool true));
    [discriminate | discriminate |].
  pose proof (normalize_settled file x1) as Hn. rewrite E in Hn. apply Hn.
  unfold settled. rewrite Hself. split; eexists.
  - by rewrite lookup_insert_ne, lookup_insert_ne, lookup_insert_eq.
  - by rewrite lookup_insert_ne, lookup_insert_eq.
Qed.

(** *** [__getstate__] *)

Lemma del_if_set_lookup_eq k st :
  del_if_set k st !! k =
    match st !! k with Some VNone => Some VNone | _ => None end.
Proof.
  unfold del_if_set. destruct (st !! k) as [v|] eqn:E; [|done].
  destruct v; simpl; by rewrite ?lookup_delete_eq.
Qed.

Lemma del_if_set_lookup_ne k k' st :
  k ≠ k' → del_if_set k st !! k' = st !! k'.
Proof.
  intros Hne. unfold del_if_set. destruct (st !! k) as [v|]; [|done].
  destruct (is_not_None v); [by rewrite lookup_delete_ne | done].
Qed.

Lemma key_if_set_lookup_ne k k' st st' :
  key_if_set env k st = Ok st' → k ≠ k' → st' !! k' = st !! k'.
Proof.
  unfold key_if_set. intros H Hne.
  destruct (st !! k) as [[]|]; simplify_eq; by rewrite ?lookup_insert_ne.
Qed.

Lemma key_if_set_lookup_eq k st st' c :
  key_if_set env k st = Ok st' → st !! k = Some (VChat c) →
  st' !! k = Some (VStr (chat_id_to_str env c)).
Proof.
  unfold key_if_set. intros H E. rewrite E in H. simplify_eq.
  by rewrite lookup_insert_eq.
Qed.

Lemma getstate_of_inv d rec :
  getstate_of env d = Ok rec →
  ∃ st1,
    key_if_set env "chat"
      (del_if_set "_ETMMsg__path"
         (del_if_set "_ETMMsg__file"
            (del_if_set "path" (del_if_set "file" (super_getstate env d)))))
      = Ok st1 ∧
    key_if_set env "author" st1 = Ok rec.
Proof.
  unfold getstate_of. intros H.
  destruct (key_if_set env "chat" _) as [st1|] eqn:E; [eauto | discriminate].
Qed.

Lemma getstate_of_other d rec k :
  getstate_of env d = Ok rec →
  k ∉ ["file"; "path"; "_ETMMsg__file"; "_ETMMsg__path"; "chat"; "author"] →
  rec !! k = super_getstate env d !! k.
Proof.
  intros H Hk. apply getstate_of_inv in H as (st1 & H1 & H2).
  repeat (apply not_elem_of_cons in Hk as [? Hk]).
  rewrite (key_if_set_lookup_ne _ _ _ _ H2) by done.
  rewrite (key_if_set_lookup_ne _ _ _ _ H1) by done.
  by rewrite !del_if_set_lookup_ne by done.
Qed.

Lemma getstate_of_stripped d rec k :
  getstate_of env d = Ok rec →
  k ∈ ["file"; "path"; "_ETMMsg__file"; "_ETMMsg__path"] →
  rec !! k =
    match super_getstate env d !! k with
    | Some VNone => Some VNone
    | _ => None
    end.
Proof.
  intros H Hk. apply getstate_of_inv in H as (st1 & H1 & H2).
  repeat (apply elem_of_cons in Hk as [-> | Hk]);
    [| | | | by apply elem_of_nil in Hk];
    rewrite (key_if_set_lookup_ne _ _ _ _ H2) by done;
    rewrite (key_if_set_lookup_ne _ _ _ _ H1) by done;
    rewrite ?(del_if_set_lookup_ne "_ETMMsg__path") by done;
    rewrite ?(del_if_set_lookup_ne "_ETMMsg__file") by done;
    rewrite ?(del_if_set_lookup_ne "path") by done;
    rewrite del_if_set_lookup_eq;
    by rewrite ?del_if_set_lookup_ne by done.
Qed.

(** *** [pickle] *)

Lemma pickle_run s c a :
  self s !! "chat" = Some (VChat c) →
  self s !! "author" = Some (VChat a) →
  pickle env s =
    (getstate_of env (self s),
     mkState (self s) (fs s)
       (trace s ++
        EvAddTask "set_slave_chat_info" [VChat c] ::
        (if chat_ne env c a && negb (is_self a)
         then [EvAddTask "set_slave_chat_info" [VChat a]]
         else []))).
Proof.
  intros Hc Ha. unfold pickle.
  erewrite bind_run by (by apply getattr_some).
  erewrite bind_run by reflexivity.
  erewrite bind_run by (by apply getattr_some).
  erewrite bind_run by reflexivity.
  unfold __getstate__.
  destruct (chat_ne env c a); simpl; [destruct (is_self a); simpl|];
    unfold bind; simpl; unfold emit; simpl; by rewrite <- ?app_assoc.
Qed.

Lemma pickle_inv s rec s1 :
  pickle env s = (Ok rec, s1) →
  getstate_of env (self s) = Ok rec ∧ self s1 = self s.
Proof.
  unfold pickle. intros H.
  mstep H as chat E. apply getattr_inv in E as ->.
  mstep H as u E. pure_step E.
  mstep H as author E. apply getattr_inv in E as ->.
  mstep H as differ E.
  assert (x = emit (EvAddTask "set_slave_chat_info" [chat]) s) as ->.
  { unfold py_ne in E. repeat case_match; by injection E. }
  clear E.
  mstep H as second E.
  assert (x = emit (EvAddTask "set_slave_chat_info" [chat]) s) as ->.
  { destruct differ; [|by injection E].
    mstep E as me E1. unfold attr_is_self in E1.
    destruct author; try discriminate. injection E1 as <- <-. by injection E. }
  clear E.
  mstep H as u1 E.
  assert (self x = self s) as Hx.
  { destruct second; by pure_step E. }
  unfold __getstate__ in H. injection H as H <-. by rewrite Hx in H.
Qed.

(** *** [unpickle] *)

Lemma get_chat_calls_snoc t call :
  get_chat_calls (t ++ [EvGetChat call]) = (get_chat_calls t ++ [call])%list.
Proof. unfold get_chat_calls. by rewrite omap_app. Qed.

Lemma get_chat_run cm m i parent s v :
  cm (get_chat_calls (trace s)) (mkCall m i parent true) = Some v →
  get_chat cm m i parent true s =
    (Ok v, emit (EvGetChat (mkCall m i parent true)) s).
Proof. intros H. unfold get_chat. by rewrite H. Qed.

Lemma split_chat_key_run key p s :
  chat_id_str_to_id env key = Some p →
  split_chat_key env (VStr key) s = (Ok p, s).
Proof. intros H. unfold split_chat_key. simpl. unfold bind. simpl. by rewrite H. Qed.

Lemma chat_is_group_inv v s r s1 : chat_is_group v s = (r, s1) → s1 = s.
Proof. unfold chat_is_group. intros E. repeat case_match; by injection E. Qed.

Lemma unpickle_inv data cm w s3 :
  unpickle env data cm w = (Ok tt, s3) →
  ∃ w1 chat author,
    loads env data w = (Ok tt, w1) ∧
    self s3 = <["author" := author]> (<["chat" := chat]> (self w1))
    ∧ fs s3 = fs w1.
Proof.
  unfold unpickle. intros H.
  mstep H as u Hloads. destruct u. exists x.
  mstep H as ck E. apply getattr_inv in E as ->.
  mstep H as c E. unfold split_chat_key in E. mstep E as key E1.
  apply as_str_inv in E1 as [-> ->]. apply or_raise_inv in E as [_ ->].
  mstep H as ak E. apply getattr_inv in E as ->.
  mstep H as a E. unfold split_chat_key in E. mstep E as key1 E1.
  apply as_str_inv in E1 as [-> ->]. apply or_raise_inv in E as [_ ->].
  mstep H as chat E. unfold get_chat in E.
  destruct (cm _ _) in E; [|discriminate]. injection E as <- <-.
  mstep H as u1 E. pure_step E.
  mstep H as chat1 E. apply getattr_inv in E as ->.
  destruct (_ && _).
  - pure_step H. normg. eauto.
  - mstep H as group E. apply chat_is_group_inv in E as ->.
    destruct group; mstep H as author E; unfold get_chat in E;
      (destruct (cm _ _) in E; [|discriminate]); injection E as <- <-;
      pure_step H; normg; eauto.
Qed.

End Codec.

(** C7. For a message whose chat and author are chat objects, [pickle]
    hands the task queue one [set_slave_chat_info] task for the chat and
    a second one for the author exactly when the author differs from the
    chat and is not the self identity; these additions to the queue are
    all it does to the outside, and it returns the record of
    [__getstate__]. *)
Theorem pickle_enqueues_refresh_tasks (env : Env) (s : state) (c a : ETMChat) :
  self s !! "chat" = Some (VChat c) →
  self s !! "author" = Some (VChat a) →
  pickle env s =
    (getstate_of env (self s),
     mkState (self s) (fs s)
       (trace s ++
        EvAddTask "set_slave_chat_info" [VChat c] ::
        (if chat_ne env c a && negb (is_self a)
         then [EvAddTask "set_slave_chat_info" [VChat a]]
         else []))).
Proof. apply pickle_run. Qed.

Lemma pickle_enqueues_refresh_tasks_witness :
  pickle Sample.env Sample.resolved =
    (getstate_of Sample.env (self Sample.resolved),
     mkState (self Sample.resolved) (fs Sample.resolved)
       (trace Sample.resolved ++
        EvAddTask "set_slave_chat_info" [VChat Sample.room] ::
        (if chat_ne Sample.env Sample.room Sample.alice
            && negb (is_self Sample.alice)
         then [EvAddTask "set_slave_chat_info" [VChat Sample.alice]]
         else []))).
Proof.
  apply (pickle_enqueues_refresh_tasks Sample.env Sample.resolved
           Sample.room Sample.alice); vm_compute; reflexivity.
Defined.

(** C2 (amended). In the record of [__getstate__] the entries [file],
    [path], [__file] and [__path] are absent whenever they held a value
    (an entry that is [None] stays [None]), whatever the state of the
    message; the file name is kept as the base state has it; chat and
    author, when they are chat objects, are replaced by their string
    keys. *)
Theorem getstate_strips_file_and_path (env : Env) (d rec : gmap string pyval) :
  getstate_of env d = Ok rec →
  (∀ k, k ∈ ["file"; "path"; "_ETMMsg__file"; "_ETMMsg__path"] →
        rec !! k = match super_getstate env d !! k with
                   | Some VNone => Some VNone
                   | _ => None
                   end) ∧
  rec !! "_ETMMsg__filename" = super_getstate env d !! "_ETMMsg__filename" ∧
  rec !! "filename" = super_getstate env d !! "filename" ∧
  (∀ c, super_getstate env d !! "chat" = Some (VChat c) →
        rec !! "chat" = Some (VStr (chat_id_to_str env c))) ∧
  (∀ a, super_getstate env d !! "author" = Some (VChat a) →
        rec !! "author" = Some (VStr (chat_id_to_str env a))).
Proof.
  intros H. split; [|split; [|split; [|split]]].
  - intros k Hk. by apply getstate_of_stripped.
  - apply getstate_of_other; [done|].
    by repeat (apply not_elem_of_cons; split; [done|]); apply not_elem_of_nil.
  - apply getstate_of_other; [done|].
    by repeat (apply not_elem_of_cons; split; [done|]); apply not_elem_of_nil.
  - intros c Hc. apply getstate_of_inv in H as (st1 & H1 & H2).
    rewrite (key_if_set_lookup_ne _ _ _ _ _ H2) by done.
    apply (key_if_set_lookup_eq _ _ _ _ _ H1).
    by rewrite !del_if_set_lookup_ne by done.
  - intros a Ha. apply getstate_of_inv in H as (st1 & H1 & H2).
    apply (key_if_set_lookup_eq _ _ _ _ _ H2).
    rewrite (key_if_set_lookup_ne _ _ _ _ _ H1) by done.
    by rewrite !del_if_set_lookup_ne by done.
Qed.

Lemma getstate_strips_file_and_path_witness :
  let d := self Sample.resolved in
  let rec := pickled Sample.env Sample.resolved in
  (∀ k, k ∈ ["file"; "path"; "_ETMMsg__file"; "_ETMMsg__path"] →
        rec !! k = match super_getstate Sample.env d !! k with
                   | Some VNone => Some VNone
                   | _ => None
                   end) ∧
  rec !! "_ETMMsg__filename" = super_getstate Sample.env d !! "_ETMMsg__filename" ∧
  rec !! "filename" = super_getstate Sample.env d !! "filename" ∧
  (∀ c, super_getstate Sample.env d !! "chat" = Some (VChat c) →
        rec !! "chat" = Some (VStr (chat_id_to_str Sample.env c))) ∧
  (∀ a, super_getstate Sample.env d !! "author" = Some (VChat a) →
        rec !! "author" = Some (VStr (chat_id_to_str Sample.env a))).
Proof.
  intros d rec.
  apply (getstate_strips_file_and_path Sample.env d rec).
  vm_compute. reflexivity.
Defined.

(** C2 as stated fails: after [get_file()] the record [pickle] returns
    still holds the file name. *)
Lemma pickle_keeps_filename :
  ¬ (∀ (s : state) (rec : gmap string pyval) (s1 : state),
       pickle Sample.env s = (Ok rec, s1) →
       rec !! "_ETMMsg__file" = None ∧ rec !! "_ETMMsg__path" = None ∧
       rec !! "_ETMMsg__filename" = None).
Proof.
  intros H.
  destruct (H Sample.resolved (pickled Sample.env Sample.resolved)
              (snd (pickle Sample.env Sample.resolved))) as (_ & _ & Hn).
  - vm_compute. reflexivity.
  - assert (pickled Sample.env Sample.resolved !! "_ETMMsg__filename"
            = Some (VStr "tmp0.mp4")) as Hv by (vm_compute; reflexivity).
    rewrite Hn in Hv. discriminate.
Qed.

(** C3. Once [pickle.loads] has rebuilt the object from the record,
    whatever the base class did while restoring it, [unpickle] asks the
    directory for the chat with [build_dummy=True] and no parent; when
    the author key has the module and chat id of the chat key, the
    author is the chat object itself and the directory is not asked
    again; otherwise the directory is asked for the author with
    [build_dummy=True], with the chat id as third argument when the chat
    is a group, and with no third argument when it is not.  Beyond the
    two lookups [unpickle] touches nothing. *)
Theorem unpickle_resolves_references (env : Env) (cm : ChatObjectCacheManager)
    (data : gmap string pyval) (w w1 : state) (ckey akey : string)
    (c a : string * string) (chat author : pyval) :
  loads env data w = (Ok tt, w1) →
  let obj := self w1 in
  let call1 := mkCall (fst c) (snd c) None true in
  let history := get_chat_calls (trace w1) in
  obj !! "chat" = Some (VStr ckey) →
  obj !! "author" = Some (VStr akey) →
  chat_id_str_to_id env ckey = Some c →
  chat_id_str_to_id env akey = Some a →
  cm history call1 = Some chat →
  (truthy chat = true → ∃ x, chat = VChat x) →
  match author_lookup c a chat with
  | None => Some chat
  | Some call2 => cm (history ++ [call1])%list call2
  end = Some author →
  unpickle env data cm w =
    (Ok tt,
     mkState (<["author" := author]> (<["chat" := chat]> obj)) (fs w1)
       (trace w1 ++ EvGetChat call1 ::
        match author_lookup c a chat with
        | None => []
        | Some call2 => [EvGetChat call2]
        end))
  ∧ (fst a = fst c ∧ snd a = snd c → author = chat).
Proof.
  intros Hloads obj call1 history Hc Ha Hck Hak Hchat Hty Hauthor.
  split.
  2: { intros Heq. unfold author_lookup in Hauthor.
       rewrite bool_decide_eq_true_2 in Hauthor by done. congruence. }
  unfold unpickle.
  erewrite bind_run by exact Hloads.
  erewrite bind_run by (by apply getattr_some).
  erewrite bind_run by (by apply split_chat_key_run).
  erewrite bind_run by (by apply getattr_some).
  erewrite bind_run by (by apply split_chat_key_run).
  erewrite bind_run by (by apply get_chat_run).
  erewrite bind_run by reflexivity.
  erewrite bind_run by (apply getattr_some; apply lookup_insert_eq).
  unfold author_lookup in *.
  destruct (decide (a.1 = c.1 ∧ a.2 = c.2)) as [[Ea Eb]|Hne].
  { rewrite (bool_decide_eq_true_2 (a.1 = c.1)),
      (bool_decide_eq_true_2 (a.2 = c.2)) by done.
    rewrite bool_decide_eq_true_2 in * by done.
    injection Hauthor as <-. unfold setattr, emit, set_self. by simpl. }
  assert (bool_decide (a.1 = c.1) && bool_decide (a.2 = c.2) = false) as ->.
  { apply andb_false_iff.
    destruct (decide (a.1 = c.1));
      [right | left]; apply bool_decide_eq_false; tauto. }
  rewrite (bool_decide_eq_false_2 (a.1 = c.1 ∧ a.2 = c.2)) in * by done.
  assert (∀ S, chat_is_group chat S = (Ok (is_group chat), S)) as Hg
    by (intros S; unfold chat_is_group; destruct (truthy chat) eqn:Et;
        [destruct Hty as [x ->]; done | by destruct chat]).
  erewrite bind_run by apply Hg.
  destruct (is_group chat).
  all: erewrite bind_run
         by (apply get_chat_run; normg; rewrite get_chat_calls_snoc;
             exact Hauthor).
  all: unfold setattr, emit, set_self; simpl; by rewrite <- app_assoc.
Qed.

Lemma unpickle_resolves_references_witness :
  let data := pickled Sample.env Sample.resolved in
  let w := Sample.empty_state in
  let w1 := snd (loads Sample.env data w) in
  let chat := VChat (mkChat 0 "a" "room" ChatType.Group false) in
  let author := VChat (mkChat 1 "a" "2" (ChatType.Other "User") false) in
  unpickle Sample.env data Sample.chat_manager w =
    (Ok tt,
     mkState (<["author" := author]> (<["chat" := chat]> (self w1)))
       (fs w1)
       (trace w1 ++ EvGetChat (mkCall "a" "room" None true) ::
        match author_lookup ("a", "room") ("a", "2") chat with
        | None => []
        | Some call2 => [EvGetChat call2]
        end))
  ∧ (fst ("a", "2") = fst ("a", "room") ∧ snd ("a", "2") = snd ("a", "room") →
     author = chat).
Proof.
  intros data w w1 chat author.
  apply (unpickle_resolves_references Sample.env Sample.chat_manager data w w1
           "a.room" "a.2" ("a", "room") ("a", "2") chat author);
    try (vm_compute; reflexivity).
  intros _. by eexists.
Defined.

(** C10. A message with a content handle that was resolved by a read,
    then pickled and unpickled, still has the flag set while the record
    carried neither the file nor the path: [get_file()] and [get_path()]
    on the unpickled message return [None] and leave the world
    untouched, so the media is never downloaded again.  Of the base
    class it is assumed that its [__getstate__] hands out the flag and
    the private file and path entries as the instance dictionary has
    them, and that its [__setstate__], on this record, restores the flag
    and creates no private file or path entry. *)
Theorem resolved_roundtrip_loses_media (env : Env) (cm : ChatObjectCacheManager)
    (s s1 s2 w w1 s3 : state) (a : accessor) (v : pyval)
    (rec : gmap string pyval) :
  (∀ d, super_getstate env d !! "_ETMMsg__initialized"
        = d !! "_ETMMsg__initialized") →
  (∀ d, super_getstate env d !! "_ETMMsg__file" = d !! "_ETMMsg__file") →
  (∀ d, super_getstate env d !! "_ETMMsg__path" = d !! "_ETMMsg__path") →
  self s !! "_ETMMsg__initialized" = Some (VBool false) →
  has_content_handle (self s) = true →
  read env a s = (Ok v, s1) →
  pickle env s1 = (Ok rec, s2) →
  loads env rec w = (Ok tt, w1) →
  self w1 !! "_ETMMsg__initialized" = rec !! "_ETMMsg__initialized" →
  self w1 !! "_ETMMsg__file" = rec !! "_ETMMsg__file" →
  self w1 !! "_ETMMsg__path" = rec !! "_ETMMsg__path" →
  unpickle env rec cm w = (Ok tt, s3) →
  self s3 !! "_ETMMsg__initialized" = Some (VBool true) ∧
  self s3 !! "_ETMMsg__file" = None ∧
  self s3 !! "_ETMMsg__path" = None ∧
  get_file env s3 = (Ok VNone, s3) ∧
  get_path env s3 = (Ok VNone, s3).
Proof.
  intros Hkeep Hkfile Hkpath Hf Hh Hread Hpickle Hloads Hw1 Hw2 Hw3 Hunpickle.
  rewrite read_unfold in Hread. mstep Hread as u E. destruct u.
  erewrite ensure_loaded_unresolved in E by done.
  apply getattr_inv in Hread as Hx. subst x.
  pose proof (load_file_sets_flag env _ _ E) as Hflag.
  destruct (load_file_settled env _ _ Hh E) as [[h Hfile] [p Hpath]].
  apply pickle_inv in Hpickle as [Hrec _].
  apply unpickle_inv in Hunpickle as (w1' & chat & author & Hloads' & Hself & _).
  rewrite Hloads in Hloads'. injection Hloads' as <-.
  assert (self s3 !! "_ETMMsg__initialized" = Some (VBool true)) as H1.
  { rewrite Hself, !lookup_insert_ne, Hw1 by done.
    erewrite getstate_of_other; [by rewrite Hkeep | done |].
    by repeat (apply not_elem_of_cons; split; [done|]); apply not_elem_of_nil. }
  assert (self s3 !! "_ETMMsg__file" = None) as H2.
  { rewrite Hself, !lookup_insert_ne, Hw2 by done.
    erewrite getstate_of_stripped; [| done |].
    - by rewrite Hkfile, Hfile.
    - apply list_elem_of_In. simpl. tauto. }
  assert (self s3 !! "_ETMMsg__path" = None) as H3.
  { rewrite Hself, !lookup_insert_ne, Hw3 by done.
    erewrite getstate_of_stripped; [| done |].
    - by rewrite Hkpath, Hpath.
    - apply list_elem_of_In. simpl. tauto. }
  repeat split; try done.
  - change (get_file env s3) with (read env GetFile s3).
    erewrite read_resolved by done. unfold stored. simpl. by rewrite H2.
  - change (get_path env s3) with (read env GetPath s3).
    erewrite read_resolved by done. unfold stored. simpl. by rewrite H3.
Qed.

Lemma resolved_roundtrip_loses_media_witness :
  let s3 := snd (unpickle Sample.env (pickled Sample.env Sample.resolved)
                   Sample.chat_manager Sample.empty_state) in
  self s3 !! "_ETMMsg__initialized" = Some (VBool true) ∧
  self s3 !! "_ETMMsg__file" = None ∧
  self s3 !! "_ETMMsg__path" = None ∧
  get_file Sample.env s3 = (Ok VNone, s3) ∧
  get_path Sample.env s3 = (Ok VNone, s3).
Proof.
  intros s3.
  apply (resolved_roundtrip_loses_media Sample.env Sample.chat_manager
           Sample.unresolved Sample.resolved
           (snd (pickle Sample.env Sample.resolved)) Sample.empty_state
           (snd (loads Sample.env (pickled Sample.env Sample.resolved)
                   Sample.empty_state))
           s3 GetFile (VFile 1) (pickled Sample.env Sample.resolved)).
  - intros d. reflexivity.
  - intros d. reflexivity.
  - intros d. reflexivity.
  - vm_compute. reflexivity.
  - vm_compute. reflexivity.
  - vm_compute. reflexivity.
  - vm_compute. reflexivity.
  - vm_compute. reflexivity.
  - vm_compute. reflexivity.
  - vm_compute. reflexivity.
  - vm_compute. reflexivity.
  - vm_compute. reflexivity.
Defined.

(** C9. [put_telegram_file] looks for the first attachment present
    among animation, document, video, voice and video note, in that
    order, and runs the checks for audio, stickers and photos only when
    none of the five is present.  For an animation, a document, a video
    or a voice it writes the file id and the MIME type and nothing else.
    For a video note the code fails: the file id is written, then the
    read of [mime_type], which a video note does not have, raises, and
    no MIME type is written. *)
Theorem common_file_checked_first (env : Env) (message : telegram.Message)
    (s : state) :
  put_telegram_file env message s =
    match first_common_file message with
    | Some (WithMime attachment) =>
        (Ok tt,
         set_self
           (<["mime" := of_opt_str (telegram.mime_type attachment)]>
              (<["file_id" := VStr (telegram.file_id attachment)]>
                 (<["type_telegram" := VTGType (get_msg_type env message)]>
                    (self s)))) s)
    | Some (NoMime note) =>
        (Raise (AttributeError "mime_type"),
         set_self
           (<["file_id" := VStr (telegram.video_note_file_id note)]>
              (<["type_telegram" := VTGType (get_msg_type env message)]>
                 (self s))) s)
    | None =>
        (setattr "type_telegram" (VTGType (get_msg_type env message));;
         specific_checks env message) s
    end.
Proof.
  unfold put_telegram_file, first_common_file, common_file_types.
  erewrite bind_run by reflexivity.
  unfold scan_common_files.
  destruct (telegram.animation message); [done|].
  destruct (telegram.document message); [done|].
  destruct (telegram.video message); [done|].
  destruct (telegram.voice message); [done|].
  destruct (telegram.video_note message); done.
Qed.

(** The order decides: with an animation and a document attached, the
    animation is taken. *)
Example animation_before_document :
  first_common_file
    (telegram.mkMessage (Some (telegram.mkAttachment "anim" (Some "video/mp4")))
       (Some (telegram.mkAttachment "doc" (Some "application/pdf")))
       None None None None None [])
  = Some (WithMime (telegram.mkAttachment "anim" (Some "video/mp4"))).
Proof. reflexivity. Qed.

(** A message that carries a video note and nothing else: the call
    raises with the file id written and the MIME type as the constructor
    left it. *)
Example video_note_raises :
  put_telegram_file Sample.env
    (telegram.mkMessage None None None None
       (Some (telegram.mkVideoNote "note1")) None None [])
    Sample.new_msg
  = (Raise (AttributeError "mime_type"),
     set_self
       (<["file_id" := VStr "note1"]>
          (<["type_telegram" := VTGType (TGMsgType.Other "Text")]>
             (self Sample.new_msg))) Sample.new_msg).
Proof. vm_compute. reflexivity. Qed.


(** ** The normalisation by Telegram type *)

Section Normalize.
Context (env : Env).

Lemma tmp_after_one l (f : tmpfile) s :
  fs s = (l ++ [f])%list → ∀ sfx,
  NamedTemporaryFile env (VStr sfx) s =
    (Ok (S (length l)),
     set_fs (l ++ [f; mkTmp (tmp_path env (S (length l)) +:+ sfx) [] 0 false]) s).
Proof.
  intros Hfs sfx. unfold NamedTemporaryFile. rewrite Hfs, length_app. simpl.
  rewrite Nat.add_1_r, <- app_assoc. done.
Qed.

Lemma load_animation_ok l f c s s1 :
  fs s = (l ++ [f])%list →
  self s !! "deliver_to" = Some (VChannel c) →
  load_animation env (length l) s = (Ok tt, s1) →
  ∃ v,
    video_file_clip env (f_data f) = Some v ∧
    trace s1 =
      (trace s ++
       [EvVideoFileClip (f_name f);
        if bool_decide (c = "blueset.wechat") && bool_decide (clip_width v > 600)
        then EvPopen ["ffmpeg"; "-y"; "-i"; f_name f; "-vf"; "scale=600:-2";
                      tmp_path env (S (length l)) +:+ ".gif"]
        else EvWriteGif (tmp_path env (S (length l)) +:+ ".gif") "ffmpeg"])%list ∧
    self s1 !! "mime" = Some (VStr "image/gif").
Proof.
  destruct s as [d fs0 t0]. simpl. intros -> Hd H.
  unfold load_animation in H.
  mstep H as channel_id E.
  unfold deliver_to_channel_id in E.
  erewrite bind_run in E by (by apply getattr_some). pure_step E.
  mstep H as gif_file E. rewrite (tmp_after_one l f) in E by done. pure_step E.
  mstep H as name E. file_step E. pure_step E.
  mstep H as gif_name E. file_step E. pure_step E.
  mstep H as src E. file_step E. pure_step E.
  mstep H as u1 E. pure_step E.
  mstep H as v E. apply or_raise_inv in E as [Hv ->].
  exists v. split; [done|].
  mstep H as u2 E. norm E.
  rewrite (bool_decide_ext (VStr c = VStr "blueset.wechat") (c = "blueset.wechat"))
    in E by (split; congruence).
  set (gif_name := tmp_path env (S (length l)) +:+ ".gif") in *.
  set (ev := if bool_decide (c = "blueset.wechat") && bool_decide (clip_width v > 600)
             then _ else _).
  assert (∃ out, x = mkState d (l ++ [f; mkTmp gif_name out 0 false])
                       ((t0 ++ [EvVideoFileClip (f_name f)]) ++ [ev]))
    as (out & ->).
  { subst ev.
    destruct (bool_decide (c = "blueset.wechat") && bool_decide (clip_width v > 600)).
    - mstep E as u3 E1. pure_step E1.
      mstep E as out E1. apply or_raise_inv in E1 as [_ ->].
      file_step E. pure_step E. by exists out.
    - mstep E as u3 E1. pure_step E1.
      mstep E as out E1. apply or_raise_inv in E1 as [_ ->].
      file_step E. pure_step E. by exists out. }
  clear E.
  mstep H as u4 E. file_step E. pure_step E.
  mstep H as u5 E. file_step E. pure_step E.
  mstep H as u6 E. pure_step E.
  mstep H as u7 E. pure_step E.
  mstep H as fn E. apply getattr_inv in E as ->.
  mstep H as u8 E. pure_step E. pure_step H.
  normg. split; [by rewrite <- app_assoc | by rewrite lookup_insert_eq].
Qed.


Lemma py_or_idem a b : py_or (py_or a b) b = py_or a b.
Proof. unfold py_or. destruct (truthy a) eqn:Ea; [by rewrite Ea|]. by destruct (truthy b). Qed.

Lemma py_add_str_inv v sfx s r s1 :
  py_add_str v sfx s = (Ok r, s1) → ∃ b, v = VStr b ∧ r = VStr (b +:+ sfx) ∧ s1 = s.
Proof.
  destruct v; cbv [py_add_str ret raise]; intros; simplify_eq. eauto.
Qed.

Lemma load_animated_sticker_ok l name payload s s1 :
  fs s = (l ++ [mkTmp name payload 0 false])%list →
  load_animated_sticker env (length l) s = (Ok tt, s1) →
  ∃ b,
    py_or (stored "_ETMMsg__filename" (self s)) (VStr (basename name)) = VStr b ∧
    trace s1 =
      (trace s ++ [EvConvertTgs name (tmp_path env (S (length l)) +:+ ".gif")])%list ∧
    match convert_tgs_to_gif env payload with
    | Some gif =>
        self s1 =
          <["_ETMMsg__path" := VStr (tmp_path env (S (length l)) +:+ ".gif")]>
            (<["_ETMMsg__file" := VFile (S (length l))]>
               (<["_ETMMsg__filename" := VStr (b +:+ ".gif")]>
                  (<["mime" := VStr "image/gif"]> (self s)))) ∧
        fs s1 =
          (l ++ [mkTmp name payload (tgs_input_pos env payload) true;
                 mkTmp (tmp_path env (S (length l)) +:+ ".gif") gif 0 false])%list
    | None =>
        self s1 =
          <["_ETMMsg__path" := VStr name]>
            (<["_ETMMsg__file" := VFile (length l)]>
               (<["_ETMMsg__filename" := VStr (b +:+ ".json")]>
                  (<["mime" := VStr "application/json"]> (self s)))) ∧
        fs s1 =
          (l ++ [mkTmp name payload 0 false;
                 mkTmp (tmp_path env (S (length l)) +:+ ".gif")
                       (tgs_partial_output env payload)
                       (length (tgs_partial_output env payload)) true])%list
    end.
Proof.
  destruct s as [d fs0 t0]. simpl. intros -> H.
  unfold load_animated_sticker in H.
  mstep H as out_file E.
  rewrite (tmp_after_one l (mkTmp name payload 0 false)) in E by done.
  pure_step E.
  mstep H as name1 E. file_step E. pure_step E.
  mstep H as out_name E. file_step E. pure_step E.
  mstep H as src E. file_step E. pure_step E.
  mstep H as u1 E. pure_step E.
  mstep H as u2 E. file_step E. pure_step E.
  mstep H as out E. norm E.
  destruct (convert_tgs_to_gif env _) as [gif|].
  - mstep E as u3 E1. file_step E1. pure_step E1.
    mstep E as u4 E1. file_step E1. pure_step E1.
    mstep E as u5 E1. file_step E1. pure_step E1.
    mstep E as u6 E1. pure_step E1.
    mstep E as fn E1. rewrite getattr_stored in E1 by reflexivity. pure_step E1.
    mstep E as fn1 E1. apply py_add_str_inv in E1 as (b & Hb & -> & ->).
    mstep E as u7 E1. pure_step E1. pure_step E.
    mstep H as u8 E. pure_step E.
    mstep H as path E. file_step E. pure_step E. pure_step H.
    exists b. normg. normg.
    rewrite stored_insert_ne in Hb by done.
    rewrite drop_nil, app_nil_r. done.
  - mstep E as u3 E1. file_step E1. pure_step E1.
    mstep E as u4 E1. file_step E1. pure_step E1.
    mstep E as u5 E1. file_step E1. pure_step E1.
    mstep E as u6 E1. pure_step E1.
    mstep E as fn E1. rewrite getattr_stored in E1 by reflexivity. pure_step E1.
    mstep E as fn1 E1. apply py_add_str_inv in E1 as (b & Hb & -> & ->).
    mstep E as u7 E1. pure_step E1. pure_step E.
    mstep H as u8 E. pure_step E.
    mstep H as path E. file_step E. pure_step E. pure_step H.
    exists b. normg. normg.
    rewrite stored_insert_ne in Hb by done.
    rewrite drop_nil, app_nil_r. done.
Qed.

End Normalize.

Section LoadFile.
Context (env : Env).

Lemma truthy_nonempty fid : fid ≠ "" → truthy (VStr fid) = true.
Proof. intros H. simpl. by rewrite bool_decide_eq_false_2. Qed.

Lemma load_file_inv s s1 fid :
  self s !! "file_id" = Some (VStr fid) → fid ≠ "" →
  _load_file env s = (Ok tt, s1) →
  ∃ x1 x2 name payload mime t,
    file_meta_download env fid = Some payload ∧
    fs x1 = (fs s ++ [mkTmp name payload 0 false])%list ∧
    self x1 =
      <["_ETMMsg__filename" :=
          py_or (stored "_ETMMsg__filename" (self s)) (VStr (basename name))]>
        (<["_ETMMsg__path" := VStr name]>
           (<["_ETMMsg__file" := VFile (length (fs s))]>
              (<["mime" := mime]> (self s)))) ∧
    trace x1 = (trace s ++ EvBotGetFile fid :: EvDownload fid :: t)%list ∧
    Forall sniff t ∧
    normalize env (length (fs s)) x1 = (Ok tt, x2) ∧
    s1 = set_self (<["_ETMMsg__initialized" := VBool true]> (self x2)) x2.
Proof.
  intros Hfid Hne H. unfold _load_file in H.
  mstep H as file_id E. rewrite (getattr_some env _ _ _ Hfid) in E. pure_step E.
  rewrite truthy_nonempty in H by done.
  mstep H as u E. destruct u. pure_step H.
  mstep E as file E1.
  apply fetch_ok in E1
    as (fid1 & name & payload & mime & t & Hv & -> & Hpay & Hfs & Hself & Ht & Hq).
  injection Hv as <-.
  by exists x1, x0, name, payload, mime, t.
Qed.

Lemma transcodes_app t1 t2 :
  transcodes (t1 ++ t2) = (transcodes t1 ++ transcodes t2)%list.
Proof. unfold transcodes. by rewrite filter_app. Qed.

Lemma transcodes_sniff t : Forall sniff t → transcodes t = [].
Proof.
  unfold transcodes. induction 1 as [|e t [path ->] _ IH]; [done|].
  by rewrite filter_cons.
Qed.

End LoadFile.

(** C6. When [_load_file] succeeds on an animation, the external
    transcoder is called exactly once: through [subprocess.Popen] with
    the filter [scale=600:-2] when the channel the message is delivered
    to is ["blueset.wechat"] and the clip is more than 600 pixels wide,
    through [write_gif] without any scaling in every other case; either
    way the MIME type ends as [image/gif]. *)
Theorem animation_downscaled_iff (env : Env) (s s1 : state) (fid c : string) :
  self s !! "file_id" = Some (VStr fid) → fid ≠ "" →
  self s !! "type_telegram" = Some (VTGType TGMsgType.Animation) →
  self s !! "deliver_to" = Some (VChannel c) →
  _load_file env s = (Ok tt, s1) →
  ∃ payload v src,
    file_meta_download env fid = Some payload ∧
    video_file_clip env payload = Some v ∧
    transcodes (trace s1) =
      (transcodes (trace s) ++
       [if bool_decide (c = "blueset.wechat") && bool_decide (clip_width v > 600)
        then EvPopen ["ffmpeg"; "-y"; "-i"; src; "-vf"; "scale=600:-2";
                      tmp_path env (S (length (fs s))) +:+ ".gif"]
        else EvWriteGif (tmp_path env (S (length (fs s))) +:+ ".gif") "ffmpeg"])%list ∧
    self s1 !! "mime" = Some (VStr "image/gif").
Proof.
  intros Hfid Hne Hty Hd H.
  apply load_file_inv with (fid := fid) in H
    as (x1 & x2 & name & payload & mime & t & Hpay & Hfs & Hself & Ht & Hq & Hn & ->);
    [|done|done].
  unfold normalize in Hn.
  erewrite bind_run in Hn
    by (apply getattr_some; rewrite Hself, !lookup_insert_ne by done; exact Hty).
  rewrite bool_decide_eq_true_2 in Hn by done.
  eapply load_animation_ok in Hn as (v & Hv & Htr & Hmime);
    [| exact Hfs | rewrite Hself, !lookup_insert_ne by done; exact Hd].
  exists payload, v, name. simpl in Hv. repeat split; [done | done | |].
  - normg. rewrite Htr, Ht. simpl f_name.
    change (EvBotGetFile fid :: EvDownload fid :: t)
      with ([EvBotGetFile fid; EvDownload fid] ++ t)%list.
    rewrite !transcodes_app, (transcodes_sniff t) by done.
    replace (transcodes [EvBotGetFile fid; EvDownload fid]) with (@nil event)
      by reflexivity.
    rewrite !app_nil_r. f_equal.
    by destruct (bool_decide (c = "blueset.wechat") && bool_decide (clip_width v > 600)).
  - normg. by rewrite lookup_insert_ne.
Qed.

Lemma animation_downscaled_iff_witness :
  let s := Sample.received (Sample.gif "big") "blueset.wechat" in
  let s1 := snd (_load_file Sample.env s) in
  ∃ payload v src,
    file_meta_download Sample.env "big" = Some payload ∧
    video_file_clip Sample.env payload = Some v ∧
    transcodes (trace s1) =
      (transcodes (trace s) ++
       [if bool_decide ("blueset.wechat" = "blueset.wechat")
           && bool_decide (clip_width v > 600)
        then EvPopen ["ffmpeg"; "-y"; "-i"; src; "-vf"; "scale=600:-2";
                      tmp_path Sample.env (S (length (fs s))) +:+ ".gif"]
        else EvWriteGif (tmp_path Sample.env (S (length (fs s))) +:+ ".gif")
                        "ffmpeg"])%list ∧
    self s1 !! "mime" = Some (VStr "image/gif").
Proof.
  intros s s1.
  apply (animation_downscaled_iff Sample.env s s1 "big" "blueset.wechat");
    [vm_compute; reflexivity | discriminate | vm_compute; reflexivity
    | vm_compute; reflexivity | vm_compute; reflexivity].
Defined.

(** C1 (amended). When [_load_file] succeeds on a vector sticker, [b]
    being the file name before the extension is added: if the
    conversion succeeds the MIME type is [image/gif], the file name is
    [b] followed by [.gif] and the file is the converted one; if it
    fails the file is the downloaded one, open, rewound and with the
    payload as downloaded, the MIME type is [application/json] and the
    file name is [b] followed by [.json]. *)
Theorem animated_sticker_resolution (env : Env) (s s1 : state) (fid : string) :
  self s !! "file_id" = Some (VStr fid) → fid ≠ "" →
  self s !! "type_telegram" = Some (VTGType TGMsgType.AnimatedSticker) →
  _load_file env s = (Ok tt, s1) →
  ∃ payload name b,
    file_meta_download env fid = Some payload ∧
    py_or (stored "_ETMMsg__filename" (self s)) (VStr (basename name)) = VStr b ∧
    match convert_tgs_to_gif env payload with
    | Some gif =>
        self s1 !! "mime" = Some (VStr "image/gif") ∧
        self s1 !! "_ETMMsg__filename" = Some (VStr (b +:+ ".gif")) ∧
        self s1 !! "_ETMMsg__file" = Some (VFile (S (length (fs s)))) ∧
        fs s1 !! S (length (fs s)) =
          Some (mkTmp (tmp_path env (S (length (fs s))) +:+ ".gif") gif 0 false)
    | None =>
        self s1 !! "mime" = Some (VStr "application/json") ∧
        self s1 !! "_ETMMsg__filename" = Some (VStr (b +:+ ".json")) ∧
        self s1 !! "_ETMMsg__file" = Some (VFile (length (fs s))) ∧
        self s1 !! "_ETMMsg__path" = Some (VStr name) ∧
        fs s1 !! length (fs s) = Some (mkTmp name payload 0 false)
    end.
Proof.
  intros Hfid Hne Hty H.
  apply load_file_inv with (fid := fid) in H
    as (x1 & x2 & name & payload & mime & t & Hpay & Hfs & Hself & Ht & Hq & Hn & ->);
    [|done|done].
  unfold normalize in Hn.
  erewrite bind_run in Hn
    by (apply getattr_some; rewrite Hself, !lookup_insert_ne by done; exact Hty).
  rewrite (bool_decide_eq_false_2 (_ = VTGType TGMsgType.Animation)),
    (bool_decide_eq_false_2 (_ = VTGType TGMsgType.Sticker)),
    bool_decide_eq_true_2 in Hn by done.
  eapply load_animated_sticker_ok in Hn as (b & Hb & _ & Hres); [|exact Hfs].
  exists payload, name, b. split; [done|]. split.
  { rewrite Hself in Hb. unfold stored in Hb at 1.
    rewrite lookup_insert_eq in Hb. simpl in Hb. by rewrite py_or_idem in Hb. }
  destruct (convert_tgs_to_gif env payload) as [gif|];
    destruct Hres as [Hs Hf]; normg; rewrite Hs, Hf.
  - repeat split.
    + by rewrite !lookup_insert_ne, lookup_insert_eq by done.
    + by rewrite !lookup_insert_ne, lookup_insert_eq by done.
    + by rewrite !lookup_insert_ne, lookup_insert_eq by done.
    + apply lookup_snoc_next.
  - repeat split.
    + by rewrite !lookup_insert_ne, lookup_insert_eq by done.
    + by rewrite !lookup_insert_ne, lookup_insert_eq by done.
    + by rewrite !lookup_insert_ne, lookup_insert_eq by done.
    + by rewrite !lookup_insert_ne, lookup_insert_eq by done.
    + apply lookup_snoc_here.
Qed.

Lemma animated_sticker_resolution_witness :
  let s := Sample.received (Sample.tgs "broken") "x" in
  let s1 := snd (_load_file Sample.env s) in
  ∃ payload name b,
    file_meta_download Sample.env "broken" = Some payload ∧
    py_or (stored "_ETMMsg__filename" (self s)) (VStr (basename name)) = VStr b ∧
    match convert_tgs_to_gif Sample.env payload with
    | Some gif =>
        self s1 !! "mime" = Some (VStr "image/gif") ∧
        self s1 !! "_ETMMsg__filename" = Some (VStr (b +:+ ".gif")) ∧
        self s1 !! "_ETMMsg__file" = Some (VFile (S (length (fs s)))) ∧
        fs s1 !! S (length (fs s)) =
          Some (mkTmp (tmp_path Sample.env (S (length (fs s))) +:+ ".gif")
                      gif 0 false)
    | None =>
        self s1 !! "mime" = Some (VStr "application/json") ∧
        self s1 !! "_ETMMsg__filename" = Some (VStr (b +:+ ".json")) ∧
        self s1 !! "_ETMMsg__file" = Some (VFile (length (fs s))) ∧
        self s1 !! "_ETMMsg__path" = Some (VStr name) ∧
        fs s1 !! length (fs s) = Some (mkTmp name payload 0 false)
    end.
Proof.
  intros s s1.
  apply (animated_sticker_resolution Sample.env s s1 "broken");
    [vm_compute; reflexivity | discriminate | vm_compute; reflexivity
    | vm_compute; reflexivity].
Defined.

(** C1 as stated fails: for the vector sticker [broken], whose
    conversion fails, the MIME type after [_load_file] is
    [application/json], not the [application/json+tgs] that
    [put_telegram_file] declared. *)
Lemma failed_conversion_mime_is_json :
  ¬ (∀ (s s1 : state) (fid : string) (payload : list byte),
       self s !! "file_id" = Some (VStr fid) →
       self s !! "type_telegram" = Some (VTGType TGMsgType.AnimatedSticker) →
       file_meta_download Sample.env fid = Some payload →
       convert_tgs_to_gif Sample.env payload = None →
       _load_file Sample.env s = (Ok tt, s1) →
       self s1 !! "mime" = Some (VStr "application/json+tgs")).
Proof.
  intros H.
  specialize (H (Sample.received (Sample.tgs "broken") "x")
                (snd (_load_file Sample.env
                        (Sample.received (Sample.tgs "broken") "x")))
                "broken" (Sample.payload_of "broken")).
  assert (self (snd (_load_file Sample.env
                       (Sample.received (Sample.tgs "broken") "x"))) !! "mime"
          = Some (VStr "application/json")) as Hv by (vm_compute; reflexivity).
  rewrite H in Hv; [discriminate | | | | |]; vm_compute; reflexivity.
Qed.


(** * Further properties of the resolver and the codec *)

(** ** Running a computation forward *)

Lemma with_file_run {A} h f (k : tmpfile → M A) s :
  fs s !! h = Some f → with_file h k s = k f s.
Proof. intros H. unfold with_file. by rewrite H. Qed.

Lemma update_file_run h f g s :
  fs s !! h = Some f →
  update_file h g s = (Ok tt, set_fs (<[h := g f]> (fs s)) s).
Proof. intros H. unfold update_file. by erewrite with_file_run. Qed.

(** One step of a run whose outcome is known: the step is justified by
    [tac] and the state is put back in normal form. *)
Tactic Notation "run" "by" tactic3(tac) :=
  erewrite bind_run by tac; normg.

Ltac look :=
  normg; rewrite ?insert_snoc_here, ?insert_snoc_next;
  first [apply lookup_snoc_here | apply lookup_snoc_next].

Ltac run_file :=
  first
    [ run by (unfold file_name, file_rest, file_content;
              erewrite with_file_run by look; reflexivity)
    | run by (unfold file_seek, file_close, file_write, file_replace;
              erewrite update_file_run by look; reflexivity) ];
  rewrite ?insert_snoc_here, ?insert_snoc_next;
  cbn [f_name f_data f_pos f_closed firstn app Nat.add];
  rewrite ?drop_nil, ?drop_0, ?app_nil_r.

Section Forward.
Context (env : Env).

Lemma fetch_declared s fid m file_path payload :
  self s !! "mime" = Some (VStr m) → m ≠ "" →
  bot_get_file env fid = Some file_path →
  file_meta_download env fid = Some payload →
  let n := length (fs s) in
  let name := tmp_path env n +:+ default "" (guess_extension env m) in
  fetch env (VStr fid) s =
    (Ok n,
     mkState
       (<["_ETMMsg__filename" :=
            py_or (stored "_ETMMsg__filename" (self s)) (VStr (basename name))]>
          (<["_ETMMsg__path" := VStr name]>
             (<["_ETMMsg__file" := VFile n]> (<["mime" := VStr m]> (self s)))))
       (fs s ++ [mkTmp name payload 0 false])
       (trace s ++ [EvBotGetFile fid; EvDownload fid])).
Proof.
  intros Hm Hne Hmeta Hpay n name. destruct s as [d l t0]. simpl in *.
  unfold fetch.
  run by reflexivity.
  run by reflexivity.
  run by (rewrite Hmeta; reflexivity).
  run by (by apply getattr_some).
  rewrite truthy_nonempty by done. cbn [negb].
  run by reflexivity.
  run by reflexivity.
  run_file.
  run by reflexivity.
  run by (rewrite Hpay; reflexivity).
  run_file. run_file.
  rewrite truthy_nonempty by done.
  run by reflexivity.
  run by reflexivity.
  run by reflexivity.
  run by reflexivity.
  run_file.
  run by reflexivity.
  run by (by apply getattr_stored).
  run by reflexivity.
  unfold ret, stored. rewrite !lookup_insert_ne by done.
  rewrite <- app_assoc.
  subst name n. by destruct (guess_extension env m).
Qed.

Lemma fetch_sniffed s fid v0 file_path payload r mime :
  self s !! "mime" = Some v0 → truthy v0 = false →
  bot_get_file env fid = Some file_path →
  file_meta_download env fid = Some payload →
  truthy (of_opt_str (guess_type env file_path)) = false →
  magic_from_file env payload = Some r →
  match r with
  | VBytes b => VStr <$> bytes_decode env b
  | _ => Some r
  end = Some mime →
  let n := length (fs s) in
  let name := tmp_path env n +:+ splitext_ext env file_path in
  fetch env (VStr fid) s =
    (Ok n,
     mkState
       (<["_ETMMsg__filename" :=
            py_or (stored "_ETMMsg__filename" (self s)) (VStr (basename name))]>
          (<["_ETMMsg__path" := VStr name]>
             (<["_ETMMsg__file" := VFile n]> (<["mime" := mime]> (self s)))))
       (fs s ++ [mkTmp name payload 0 false])
       (trace s ++ [EvBotGetFile fid; EvDownload fid; EvMagic name])).
Proof.
  intros Hm Hf Hmeta Hpay Hg Hmagic Hmime n name. destruct s as [d l t0].
  simpl in *. unfold fetch.
  run by reflexivity.
  run by reflexivity.
  run by (rewrite Hmeta; reflexivity).
  run by (by apply getattr_some).
  rewrite Hf. cbn [negb].
  run by reflexivity.
  run by reflexivity.
  run_file.
  run by reflexivity.
  run by (rewrite Hpay; reflexivity).
  run_file. run_file.
  cbn [fst snd]. rewrite Hg.
  run by (run by reflexivity; run_file; rewrite Hmagic; reflexivity).
  assert (match r with
          | VBytes b => do d0 <- or_raise (bytes_decode env b) "decode"; ret (VStr d0)
          | _ => ret r
          end
            {| self := d;
               fs := l ++ [mkTmp name payload 0 false];
               trace := ((t0 ++ [EvBotGetFile fid]) ++ [EvDownload fid]) ++ [EvMagic name] |}
          = (Ok mime,
             {| self := d;
                fs := l ++ [mkTmp name payload 0 false];
                trace := ((t0 ++ [EvBotGetFile fid]) ++ [EvDownload fid]) ++ [EvMagic name] |}))
    as Hdec.
  { destruct r; simplify_eq/=; try done.
    destruct (bytes_decode env b) as [x|]; by simplify_eq/=. }
  run by exact Hdec.
  run by reflexivity.
  run by reflexivity.
  run_file.
  run by reflexivity.
  run by (by apply getattr_stored).
  run by reflexivity.
  unfold ret, stored. rewrite !lookup_insert_ne by done.
  by rewrite <- !app_assoc.
Qed.

(** The end of [_load_file] for a Telegram type that needs no
    normalisation. *)
Lemma normalize_plain file t s :
  self s !! "type_telegram" = Some (VTGType t) →
  t ≠ TGMsgType.Animation → t ≠ TGMsgType.Sticker →
  t ≠ TGMsgType.AnimatedSticker →
  normalize env file s = (Ok tt, s).
Proof.
  intros Ht H1 H2 H3. unfold normalize.
  erewrite bind_run by (by apply getattr_some).
  by rewrite !bool_decide_eq_false_2 by congruence.
Qed.

End Forward.

(** X3. A file of a Telegram type that needs no normalisation, with a
    declared MIME type: when the bot and the download answer,
    [_load_file] succeeds; the payload sits in one new temporary file
    whose name ends in the extension guessed from the declared type (no
    extension when none is known), open and rewound; the declared MIME
    type is kept, the content is not sniffed, and the remote client is
    called exactly twice (metadata, payload). *)
Theorem declared_mime_is_kept (env : Env) (s : state) (fid m : string)
    (t : TGMsgType.t) (file_path : string) (payload : list byte) :
  self s !! "file_id" = Some (VStr fid) → fid ≠ "" →
  self s !! "mime" = Some (VStr m) → m ≠ "" →
  self s !! "type_telegram" = Some (VTGType t) →
  t ≠ TGMsgType.Animation → t ≠ TGMsgType.Sticker →
  t ≠ TGMsgType.AnimatedSticker →
  bot_get_file env fid = Some file_path →
  file_meta_download env fid = Some payload →
  let n := length (fs s) in
  let name := tmp_path env n +:+ default "" (guess_extension env m) in
  _load_file env s =
    (Ok tt,
     mkState
       (<["_ETMMsg__initialized" := VBool true]>
          (<["_ETMMsg__filename" :=
               py_or (stored "_ETMMsg__filename" (self s)) (VStr (basename name))]>
             (<["_ETMMsg__path" := VStr name]>
                (<["_ETMMsg__file" := VFile n]> (<["mime" := VStr m]> (self s))))))
       (fs s ++ [mkTmp name payload 0 false])
       (trace s ++ [EvBotGetFile fid; EvDownload fid])).
Proof.
  intros Hfid Hne Hm Hmne Ht H1 H2 H3 Hmeta Hpay n name.
  unfold _load_file.
  erewrite bind_run by (by apply getattr_some).
  rewrite truthy_nonempty by done.
  erewrite bind_run; cycle 1.
  { erewrite (bind_run (fetch env (VStr fid))) by (by eapply fetch_declared).
    apply normalize_plain with (t := t); try done.
    cbn [self]. by rewrite !lookup_insert_ne. }
  reflexivity.
Qed.

Lemma declared_mime_is_kept_witness :
  let s := Sample.received
             (telegram.mkMessage None
                (Some (telegram.mkAttachment "doc1" (Some "video/mp4")))
                None None None None None []) "x" in
  let name := tmp_path Sample.env (length (fs s))
              +:+ default "" (guess_extension Sample.env "video/mp4") in
  _load_file Sample.env s =
    (Ok tt,
     mkState
       (<["_ETMMsg__initialized" := VBool true]>
          (<["_ETMMsg__filename" :=
               py_or (stored "_ETMMsg__filename" (self s)) (VStr (basename name))]>
             (<["_ETMMsg__path" := VStr name]>
                (<["_ETMMsg__file" := VFile (length (fs s))]>
                   (<["mime" := VStr "video/mp4"]> (self s))))))
       (fs s ++ [mkTmp name (Sample.payload_of "doc1") 0 false])
       (trace s ++ [EvBotGetFile "doc1"; EvDownload "doc1"])).
Proof.
  intros s.
  apply (declared_mime_is_kept Sample.env s "doc1" "video/mp4"
           (TGMsgType.Other "Text") "documents/doc1" (Sample.payload_of "doc1"));
    first [discriminate | vm_compute; reflexivity].
Defined.

(** X4. The same file without a declared MIME type, when the reported
    path gives no type either: the temporary file takes the extension of
    the reported path, the content is sniffed once by [magic], and the
    MIME type of the message becomes the sniffed one, decoded when
    [magic] returned bytes. *)
Theorem undeclared_mime_is_sniffed (env : Env) (s : state) (fid : string)
    (v0 : pyval) (t : TGMsgType.t) (file_path : string) (payload : list byte)
    (r mime : pyval) :
  self s !! "file_id" = Some (VStr fid) → fid ≠ "" →
  self s !! "mime" = Some v0 → truthy v0 = false →
  self s !! "type_telegram" = Some (VTGType t) →
  t ≠ TGMsgType.Animation → t ≠ TGMsgType.Sticker →
  t ≠ TGMsgType.AnimatedSticker →
  bot_get_file env fid = Some file_path →
  file_meta_download env fid = Some payload →
  truthy (of_opt_str (guess_type env file_path)) = false →
  magic_from_file env payload = Some r →
  match r with
  | VBytes b => VStr <$> bytes_decode env b
  | _ => Some r
  end = Some mime →
  let n := length (fs s) in
  let name := tmp_path env n +:+ splitext_ext env file_path in
  _load_file env s =
    (Ok tt,
     mkState
       (<["_ETMMsg__initialized" := VBool true]>
          (<["_ETMMsg__filename" :=
               py_or (stored "_ETMMsg__filename" (self s)) (VStr (basename name))]>
             (<["_ETMMsg__path" := VStr name]>
                (<["_ETMMsg__file" := VFile n]> (<["mime" := mime]> (self s))))))
       (fs s ++ [mkTmp name payload 0 false])
       (trace s ++ [EvBotGetFile fid; EvDownload fid; EvMagic name])).
Proof.
  intros Hfid Hne Hm Hf Ht H1 H2 H3 Hmeta Hpay Hg Hmagic Hmime n name.
  unfold _load_file.
  erewrite bind_run by (by apply getattr_some).
  rewrite truthy_nonempty by done.
  erewrite bind_run; cycle 1.
  { erewrite (bind_run (fetch env (VStr fid))) by (by eapply fetch_sniffed).
    apply normalize_plain with (t := t); try done.
    cbn [self]. by rewrite !lookup_insert_ne. }
  reflexivity.
Qed.

Lemma undeclared_mime_is_sniffed_witness :
  let s := Sample.received
             (telegram.mkMessage None
                (Some (telegram.mkAttachment "doc2" None))
                None None None None None []) "x" in
  let name := tmp_path Sample.env (length (fs s))
              +:+ splitext_ext Sample.env "documents/doc2" in
  _load_file Sample.env s =
    (Ok tt,
     mkState
       (<["_ETMMsg__initialized" := VBool true]>
          (<["_ETMMsg__filename" :=
               py_or (stored "_ETMMsg__filename" (self s)) (VStr (basename name))]>
             (<["_ETMMsg__path" := VStr name]>
                (<["_ETMMsg__file" := VFile (length (fs s))]>
                   (<["mime" := VStr "application/octet-stream"]> (self s))))))
       (fs s ++ [mkTmp name (Sample.payload_of "doc2") 0 false])
       (trace s ++ [EvBotGetFile "doc2"; EvDownload "doc2"; EvMagic name])).
Proof.
  intros s.
  apply (undeclared_mime_is_sniffed Sample.env s "doc2" VNone
           (TGMsgType.Other "Text") "documents/doc2" (Sample.payload_of "doc2")
           (VStr "application/octet-stream") (VStr "application/octet-stream"));
    first [discriminate | vm_compute; reflexivity].
Defined.

(** ** Attributes a computation leaves alone *)

Section Keeps.
Context (env : Env) (k : string) (v : option pyval).

Lemma preserves_key_self {A} (m : M A) :
  (∀ s, self (snd (m s)) = self s) →
  preserves (λ s, self s !! k = v) m.
Proof. intros H s Hs. simpl. by rewrite H. Qed.

Lemma preserves_key_log e : preserves (λ s, self s !! k = v) (log e).
Proof. by apply preserves_key_self. Qed.

Lemma preserves_key_update_file h g :
  preserves (λ s, self s !! k = v) (update_file h g).
Proof. apply preserves_with_file. intros f. by apply preserves_key_self. Qed.

Lemma preserves_key_tmp x :
  preserves (λ s, self s !! k = v) (NamedTemporaryFile env x).
Proof. by apply preserves_key_self. Qed.

Lemma preserves_key_setattr k' x :
  k' ≠ k → preserves (λ s, self s !! k = v) (setattr k' x).
Proof. intros Hne s Hs. simpl. by rewrite lookup_insert_ne. Qed.

End Keeps.

Ltac keeps_step :=
  first
    [ apply preserves_ret | apply preserves_raise | apply preserves_getattr
    | apply preserves_or_raise | apply preserves_as_str
    | apply preserves_py_add_str | apply preserves_key_log
    | apply preserves_key_update_file | apply preserves_key_tmp
    | apply preserves_key_setattr; congruence
    | apply preserves_with_file; intros ?
    | apply preserves_bind; [| intros ?]
    | match goal with
      | |- preserves _ (if ?c then _ else _) => destruct c
      | |- preserves _ (match ?x with _ => _ end) => destruct x
      end ].

Section Failure.
Context (env : Env).

(** The download and the normalisation write [mime] and the three
    private slots, and no other attribute. *)
Lemma resolve_keeps k v fid :
  k ≠ "mime" → k ≠ "_ETMMsg__file" → k ≠ "_ETMMsg__path" →
  k ≠ "_ETMMsg__filename" →
  preserves (λ s, self s !! k = v)
    (do file <- fetch env fid; normalize env file).
Proof.
  intros H1 H2 H3 H4.
  unfold fetch, normalize, load_animation, load_sticker, load_animated_sticker,
    deliver_to_channel_id,
    file_name, file_close, file_rest, file_content, file_seek,
    file_write, file_replace.
  repeat keeps_step.
Qed.

Lemma load_file_raise_inv s e s1 :
  _load_file env s = (Raise e, s1) →
  ∃ fid, getattr env "file_id" s = (Ok fid, s) ∧ truthy fid = true ∧
         s1 = snd ((do file <- fetch env fid; normalize env file) s).
Proof.
  unfold _load_file. intros H.
  unfold bind at 1 in H.
  destruct (getattr env "file_id" s) as [[fid|e0] s0] eqn:E.
  - pose proof (getattr_inv _ _ _ _ _ E) as ->. exists fid. split; [done|].
    unfold bind at 1 in H. destruct (truthy fid); [|done].
    split; [done|].
    destruct ((do file <- fetch env fid; normalize env file) s)
      as [[[]|e1] s2]; [done|]. by inversion H.
  - unfold getattr, class_attr in E. simpl in E.
    by destruct (self s !! "file_id").
Qed.

Lemma read_raise_inv a s e s1 :
  self s !! "_ETMMsg__initialized" = Some (VBool false) →
  read env a s = (Raise e, s1) → _load_file env s = (Raise e, s1).
Proof.
  intros Hf H. rewrite read_unfold in H. unfold bind in H.
  erewrite ensure_loaded_unresolved in H by done.
  destruct (_load_file env s) as [[[]|e1] s2]; [|by inversion H].
  rewrite getattr_slot in H. done.
Qed.

End Failure.

(** X5. A resolution that fails does not count as done.  When a read of
    [file], [path] or [filename] raises on an unresolved message with a
    content handle, the flag is still [False] and the handle is
    unchanged, so the next read of any of the three asks the bot for the
    same handle again. *)
Theorem failed_resolution_is_retried (env : Env) (s s1 : state) (e : exn)
    (a : accessor) (fid : string) :
  self s !! "_ETMMsg__initialized" = Some (VBool false) →
  self s !! "file_id" = Some (VStr fid) → fid ≠ "" →
  read env a s = (Raise e, s1) →
  self s1 !! "_ETMMsg__initialized" = Some (VBool false) ∧
  self s1 !! "file_id" = Some (VStr fid) ∧
  ∀ a', ∃ t : list event,
    trace (snd (read env a' s1)) = (trace s1 ++ EvBotGetFile fid :: t)%list.
Proof.
  intros Hflag Hfid Hne H.
  apply read_raise_inv in H; [|done].
  apply load_file_raise_inv in H as (v & Hv & _ & ->).
  rewrite (getattr_some _ _ _ _ Hfid) in Hv. injection Hv as <-.
  assert (∀ k w, k ≠ "mime" → k ≠ "_ETMMsg__file" → k ≠ "_ETMMsg__path" →
                 k ≠ "_ETMMsg__filename" → self s !! k = w →
                 self (snd ((do file <- fetch env (VStr fid);
                             normalize env file) s)) !! k = w) as K.
  { intros k w ? ? ? ? Hk. by apply (resolve_keeps env k w (VStr fid)). }
  assert (self (snd ((do file <- fetch env (VStr fid); normalize env file) s))
            !! "_ETMMsg__initialized" = Some (VBool false)) as F1
    by (by apply K).
  assert (self (snd ((do file <- fetch env (VStr fid); normalize env file) s))
            !! "file_id" = Some (VStr fid)) as F2
    by (by apply K).
  repeat split; [done | done |].
  intros a'. by apply read_starts.
Qed.

Lemma failed_resolution_is_retried_witness :
  let s := snd (put_telegram_file Sample.env (Sample.gif "big") Sample.new_msg) in
  let s1 := snd (read Sample.env GetFile s) in
  self s1 !! "_ETMMsg__initialized" = Some (VBool false) ∧
  self s1 !! "file_id" = Some (VStr "big") ∧
  ∀ a', ∃ t : list event,
    trace (snd (read Sample.env a' s1)) = (trace s1 ++ EvBotGetFile "big" :: t)%list.
Proof.
  intros s s1.
  apply (failed_resolution_is_retried Sample.env s s1
           (AttributeError "channel_id") GetFile "big");
    first [discriminate | vm_compute; reflexivity].
Defined.

(** ** What a successful normalisation leaves behind *)

Section Outcome.
Context (env : Env).

Lemma load_animation_inv l name payload s s1 :
  fs s = (l ++ [mkTmp name payload 0 false])%list →
  load_animation env (length l) s = (Ok tt, s1) →
  let gif_name := tmp_path env (S (length l)) +:+ ".gif" in
  ∃ gif,
    self s1 =
      <["mime" := VStr "image/gif"]>
        (<["_ETMMsg__filename" :=
             py_or (stored "_ETMMsg__filename" (self s)) (VStr (basename gif_name))]>
           (<["_ETMMsg__path" := VStr gif_name]>
              (<["_ETMMsg__file" := VFile (S (length l))]> (self s)))) ∧
    fs s1 = (l ++ [mkTmp name payload 0 true; mkTmp gif_name gif 0 false])%list.
Proof.
  destruct s as [d fs0 t0]. simpl. intros -> H.
  unfold load_animation in H.
  mstep H as channel_id E.
  assert (x = mkState d (l ++ [mkTmp name payload 0 false]) t0) as ->.
  { unfold deliver_to_channel_id in E. mstep E as dd E1.
    apply getattr_inv in E1 as ->. destruct dd; by inversion E. }
  clear E.
  mstep H as gif_file E.
  rewrite (tmp_after_one env l (mkTmp name payload 0 false)) in E by done.
  pure_step E.
  mstep H as name1 E. file_step E. injection E as <- <-.
  mstep H as gif_name E. file_step E. pure_step E.
  mstep H as src E. file_step E. injection E as <- <-.
  mstep H as u1 E. pure_step E.
  mstep H as v E. apply or_raise_inv in E as [Hv ->].
  mstep H as u2 E. norm E.
  set (gif_name := tmp_path env (S (length l)) +:+ ".gif") in *.
  assert (∃ out t1, x = mkState d (l ++ [mkTmp name payload 0 false;
                                          mkTmp gif_name out 0 false]) t1)
    as (out & t1 & ->).
  { destruct (bool_decide (channel_id = VStr "blueset.wechat")
              && bool_decide (clip_width v > 600)).
    - mstep E as u3 E1. pure_step E1.
      mstep E as out E1. apply or_raise_inv in E1 as [_ ->].
      file_step E. pure_step E. by eexists out, _.
    - mstep E as u3 E1. pure_step E1.
      mstep E as out E1. apply or_raise_inv in E1 as [_ ->].
      file_step E. pure_step E. by eexists out, _. }
  clear E.
  mstep H as u4 E. file_step E. pure_step E.
  mstep H as u5 E. file_step E. pure_step E.
  mstep H as u6 E. pure_step E.
  mstep H as u7 E. pure_step E.
  mstep H as fn E. rewrite getattr_stored in E by reflexivity. pure_step E.
  mstep H as u8 E. pure_step E. pure_step H.
  exists out. normg. unfold stored. by rewrite !lookup_insert_ne.
Qed.

Lemma load_sticker_inv l name payload s s1 :
  fs s = (l ++ [mkTmp name payload 0 false])%list →
  load_sticker env (length l) s = (Ok tt, s1) →
  let png_name := tmp_path env (S (length l)) +:+ ".png" in
  ∃ b png,
    py_or (stored "_ETMMsg__filename" (self s)) (VStr (basename name)) = VStr b ∧
    image_to_png env payload = Some png ∧
    self s1 =
      <["_ETMMsg__path" := VStr png_name]>
        (<["_ETMMsg__file" := VFile (S (length l))]>
           (<["_ETMMsg__filename" := VStr (b +:+ ".png")]>
              (<["mime" := VStr "image/png"]> (self s)))) ∧
    fs s1 = (l ++ [mkTmp name payload 0 true; mkTmp png_name png 0 false])%list ∧
    trace s1 = (trace s ++ [EvImageConvert name "RGBA" "png"])%list.
Proof.
  destruct s as [d fs0 t0]. simpl. intros -> H.
  unfold load_sticker in H.
  mstep H as out_file E.
  rewrite (tmp_after_one env l (mkTmp name payload 0 false)) in E by done.
  pure_step E.
  mstep H as name1 E. file_step E. injection E as <- <-.
  mstep H as src E. file_step E. injection E as <- <-.
  mstep H as u1 E. pure_step E.
  mstep H as png E. apply or_raise_inv in E as [Hpng ->].
  mstep H as u2 E. file_step E. pure_step E.
  mstep H as u3 E. file_step E. pure_step E.
  mstep H as u4 E. file_step E. pure_step E.
  mstep H as u5 E. pure_step E.
  mstep H as fn E. rewrite getattr_stored in E by reflexivity. pure_step E.
  mstep H as fn1 E. apply py_add_str_inv in E as (b & Hb & -> & ->).
  mstep H as u6 E. pure_step E.
  mstep H as u7 E. pure_step E.
  mstep H as out_name E. file_step E. pure_step E. pure_step H.
  exists b, png. normg.
  rewrite stored_insert_ne in Hb by done.
  rewrite ?drop_nil, ?app_nil_r. done.
Qed.

End Outcome.

Ltac lookup_ins :=
  repeat first [rewrite lookup_insert_eq | rewrite lookup_insert_ne by done].

Section Files.
Context (env : Env).

Lemma py_or_assoc a b c : py_or (py_or a b) c = py_or a (py_or b c).
Proof. unfold py_or. destruct (truthy a) eqn:Ea; [by rewrite Ea | done]. Qed.

Lemma normalize_inv file s s1 :
  normalize env file s = (Ok tt, s1) →
  ∃ ty, getattr env "type_telegram" s = (Ok ty, s) ∧
    if bool_decide (ty = VTGType TGMsgType.Animation)
    then load_animation env file s = (Ok tt, s1)
    else if bool_decide (ty = VTGType TGMsgType.Sticker)
    then load_sticker env file s = (Ok tt, s1)
    else if bool_decide (ty = VTGType TGMsgType.AnimatedSticker)
    then load_animated_sticker env file s = (Ok tt, s1)
    else s1 = s.
Proof.
  unfold normalize. intros H. mstep H as ty E.
  pose proof (getattr_inv _ _ _ _ _ E) as ->. exists ty. split; [done|].
  repeat case_bool_decide; try done. by injection H.
Qed.

Lemma lookup_past_one {A} (l : list A) a i x :
  (l ++ [a])%list !! i = Some x → (length l ≤ i)%nat → i = length l ∧ x = a.
Proof.
  intros H Hi. rewrite lookup_app_r in H by done.
  destruct (i - length l)%nat as [|k] eqn:Ek; simpl in H; [|by destruct k].
  split; [lia | congruence].
Qed.

Lemma lookup_past_two {A} (l : list A) a b i x :
  (l ++ [a; b])%list !! i = Some x → (length l ≤ i)%nat →
  (i = length l ∧ x = a) ∨ (i = S (length l) ∧ x = b).
Proof.
  intros H Hi. rewrite lookup_app_r in H by done.
  destruct (i - length l)%nat as [|[|k]] eqn:Ek; simpl in H; [| |done].
  - left. split; [lia | congruence].
  - right. split; [lia | congruence].
Qed.

End Files.

(** X6. When [_load_file] succeeds on a static sticker, [b] being the
    file name before the extension is added (a name set before, else the
    base name of the download): the downloaded picture is converted to
    PNG once; the MIME type is [image/png]; the file name is [b]
    followed by [.png], the download's own extension staying in place;
    [file] and [path] are the PNG file, open and rewound, and the
    downloaded file is closed. *)
Theorem static_sticker_resolution (env : Env) (s s1 : state) (fid : string) :
  self s !! "file_id" = Some (VStr fid) → fid ≠ "" →
  self s !! "type_telegram" = Some (VTGType TGMsgType.Sticker) →
  _load_file env s = (Ok tt, s1) →
  let png_name := tmp_path env (S (length (fs s))) +:+ ".png" in
  ∃ payload name b png,
    file_meta_download env fid = Some payload ∧
    image_to_png env payload = Some png ∧
    py_or (stored "_ETMMsg__filename" (self s)) (VStr (basename name)) = VStr b ∧
    self s1 !! "mime" = Some (VStr "image/png") ∧
    self s1 !! "_ETMMsg__filename" = Some (VStr (b +:+ ".png")) ∧
    self s1 !! "_ETMMsg__file" = Some (VFile (S (length (fs s)))) ∧
    self s1 !! "_ETMMsg__path" = Some (VStr png_name) ∧
    fs s1 = (fs s ++ [mkTmp name payload 0 true;
                      mkTmp png_name png 0 false])%list.
Proof.
  intros Hfid Hne Hty H png_name.
  apply load_file_inv with (fid := fid) in H
    as (x1 & x2 & name & payload & mime & t & Hpay & Hfs & Hself & Ht & Hq & Hn & ->);
    [|done|done].
  apply normalize_inv in Hn as (ty & Hty1 & Hn).
  rewrite (getattr_some env "type_telegram" (VTGType TGMsgType.Sticker)) in Hty1
    by (rewrite Hself, !lookup_insert_ne by done; exact Hty).
  injection Hty1 as <-.
  rewrite (bool_decide_eq_false_2 (_ = VTGType TGMsgType.Animation)),
    bool_decide_eq_true_2 in Hn by done.
  eapply load_sticker_inv in Hn as (b & png & Hb & Hpng & Hs & Hf & _);
    [|exact Hfs].
  exists payload, name, b, png. split; [done|]. split; [done|]. split.
  { rewrite Hself in Hb. unfold stored in Hb at 1.
    rewrite lookup_insert_eq in Hb. simpl in Hb. by rewrite py_or_idem in Hb. }
  normg. rewrite Hs, Hf.
  repeat split; by lookup_ins.
Qed.

Lemma static_sticker_resolution_witness :
  let s := Sample.received
             (telegram.mkMessage None None None None None None
                (Some (telegram.mkSticker "cat" false)) []) "x" in
  let s1 := snd (_load_file Sample.env s) in
  let png_name := tmp_path Sample.env (S (length (fs s))) +:+ ".png" in
  ∃ payload name b png,
    file_meta_download Sample.env "cat" = Some payload ∧
    image_to_png Sample.env payload = Some png ∧
    py_or (stored "_ETMMsg__filename" (self s)) (VStr (basename name)) = VStr b ∧
    self s1 !! "mime" = Some (VStr "image/png") ∧
    self s1 !! "_ETMMsg__filename" = Some (VStr (b +:+ ".png")) ∧
    self s1 !! "_ETMMsg__file" = Some (VFile (S (length (fs s)))) ∧
    self s1 !! "_ETMMsg__path" = Some (VStr png_name) ∧
    fs s1 = (fs s ++ [mkTmp name payload 0 true;
                      mkTmp png_name png 0 false])%list.
Proof.
  intros s s1.
  apply (static_sticker_resolution Sample.env s s1 "cat");
    first [discriminate | vm_compute; reflexivity].
Defined.

(** X7. When [_load_file] succeeds on an animation: [file] and [path]
    are the converted GIF, open and rewound, and the downloaded video is
    closed; the file name is the one set before, else the base name of
    the downloaded video, and the base name of the GIF only when both
    are empty. *)
Theorem animation_resolution_result (env : Env) (s s1 : state) (fid : string) :
  self s !! "file_id" = Some (VStr fid) → fid ≠ "" →
  self s !! "type_telegram" = Some (VTGType TGMsgType.Animation) →
  _load_file env s = (Ok tt, s1) →
  let gif_name := tmp_path env (S (length (fs s))) +:+ ".gif" in
  ∃ payload name gif,
    file_meta_download env fid = Some payload ∧
    self s1 !! "_ETMMsg__file" = Some (VFile (S (length (fs s)))) ∧
    self s1 !! "_ETMMsg__path" = Some (VStr gif_name) ∧
    self s1 !! "_ETMMsg__filename" =
      Some (py_or (stored "_ETMMsg__filename" (self s))
              (py_or (VStr (basename name)) (VStr (basename gif_name)))) ∧
    fs s1 = (fs s ++ [mkTmp name payload 0 true;
                      mkTmp gif_name gif 0 false])%list.
Proof.
  intros Hfid Hne Hty H gif_name.
  apply load_file_inv with (fid := fid) in H
    as (x1 & x2 & name & payload & mime & t & Hpay & Hfs & Hself & Ht & Hq & Hn & ->);
    [|done|done].
  apply normalize_inv in Hn as (ty & Hty1 & Hn).
  rewrite (getattr_some env "type_telegram" (VTGType TGMsgType.Animation)) in Hty1
    by (rewrite Hself, !lookup_insert_ne by done; exact Hty).
  injection Hty1 as <-.
  rewrite bool_decide_eq_true_2 in Hn by done.
  eapply load_animation_inv in Hn as (gif & Hs & Hf); [|exact Hfs].
  exists payload, name, gif. split; [done|].
  normg. rewrite Hs, Hf, Hself.
  repeat split; lookup_ins; try done.
  f_equal. unfold stored at 1. rewrite lookup_insert_eq. simpl.
  apply py_or_assoc.
Qed.

Lemma animation_resolution_result_witness :
  let s := Sample.received (Sample.gif "small") "x" in
  let s1 := snd (_load_file Sample.env s) in
  let gif_name := tmp_path Sample.env (S (length (fs s))) +:+ ".gif" in
  ∃ payload name gif,
    file_meta_download Sample.env "small" = Some payload ∧
    self s1 !! "_ETMMsg__file" = Some (VFile (S (length (fs s)))) ∧
    self s1 !! "_ETMMsg__path" = Some (VStr gif_name) ∧
    self s1 !! "_ETMMsg__filename" =
      Some (py_or (stored "_ETMMsg__filename" (self s))
              (py_or (VStr (basename name)) (VStr (basename gif_name)))) ∧
    fs s1 = (fs s ++ [mkTmp name payload 0 true;
                      mkTmp gif_name gif 0 false])%list.
Proof.
  intros s s1.
  apply (animation_resolution_result Sample.env s s1 "small");
    first [discriminate | vm_compute; reflexivity].
Defined.

(** X8. Whatever the Telegram type, a successful [_load_file] on a
    message with a content handle only adds temporary files; [file] is
    one of the added files, open and rewound, [path] is its name, and
    every other file the call created is closed. *)
Theorem resolved_file_is_open_and_rewound (env : Env) (s s1 : state)
    (fid : string) :
  self s !! "file_id" = Some (VStr fid) → fid ≠ "" →
  _load_file env s = (Ok tt, s1) →
  ∃ h f new,
    fs s1 = (fs s ++ new)%list ∧
    (length (fs s) ≤ h)%nat ∧
    self s1 !! "_ETMMsg__file" = Some (VFile h) ∧
    self s1 !! "_ETMMsg__path" = Some (VStr (f_name f)) ∧
    fs s1 !! h = Some f ∧ f_closed f = false ∧ f_pos f = 0%nat ∧
    ∀ i g, fs s1 !! i = Some g → (length (fs s) ≤ i)%nat → i ≠ h →
           f_closed g = true.
Proof.
  intros Hfid Hne H.
  apply load_file_inv with (fid := fid) in H
    as (x1 & x2 & name & payload & mime & t & Hpay & Hfs & Hself & Ht & Hq & Hn & ->);
    [|done|done].
  apply normalize_inv in Hn as (ty & _ & Hn). normg.
  rewrite !lookup_insert_ne by done.
  destruct (bool_decide (ty = VTGType TGMsgType.Animation));
    [|destruct (bool_decide (ty = VTGType TGMsgType.Sticker));
      [|destruct (bool_decide (ty = VTGType TGMsgType.AnimatedSticker))]].
  - eapply load_animation_inv in Hn as (gif & Hs & Hf); [|exact Hfs].
    eexists (S (length (fs s))), (mkTmp _ gif 0 false), _.
    rewrite Hs, Hf.
    repeat split;
      first [lia | by lookup_ins | apply lookup_snoc_next | done | idtac].
    intros i g Hg Hi Hne'. apply lookup_past_two in Hg as [[-> ->]|[-> ->]];
      [done | done | done].
  - eapply load_sticker_inv in Hn as (b & png & _ & _ & Hs & Hf & _); [|exact Hfs].
    eexists (S (length (fs s))), (mkTmp _ png 0 false), _.
    rewrite Hs, Hf.
    repeat split;
      first [lia | by lookup_ins | apply lookup_snoc_next | done | idtac].
    intros i g Hg Hi Hne'. apply lookup_past_two in Hg as [[-> ->]|[-> ->]];
      [done | done | done].
  - eapply load_animated_sticker_ok in Hn as (b & _ & _ & Hres); [|exact Hfs].
    destruct (convert_tgs_to_gif env payload) as [gif|]; destruct Hres as [Hs Hf].
    + eexists (S (length (fs s))), (mkTmp _ gif 0 false), _.
      rewrite Hs, Hf.
      repeat split;
        first [lia | by lookup_ins | apply lookup_snoc_next | done | idtac].
      intros i g Hg Hi Hne'. apply lookup_past_two in Hg as [[-> ->]|[-> ->]];
        [done | done | done].
    + eexists (length (fs s)), (mkTmp name payload 0 false), _.
      rewrite Hs, Hf.
      repeat split;
        first [lia | by lookup_ins | apply lookup_snoc_here | done | idtac].
      intros i g Hg Hi Hne'. apply lookup_past_two in Hg as [[-> ->]|[-> ->]];
        [done | done | done].
  - subst x2. eexists (length (fs s)), (mkTmp name payload 0 false), _.
    rewrite Hself, Hfs.
    repeat split;
      first [lia | by lookup_ins | apply lookup_snoc_here | done | idtac].
    intros i g Hg Hi Hne'. by apply lookup_past_one in Hg as [-> ->].
Qed.

Lemma resolved_file_is_open_and_rewound_witness :
  let s := Sample.received (Sample.tgs "broken") "x" in
  let s1 := snd (_load_file Sample.env s) in
  ∃ h f new,
    fs s1 = (fs s ++ new)%list ∧
    (length (fs s) ≤ h)%nat ∧
    self s1 !! "_ETMMsg__file" = Some (VFile h) ∧
    self s1 !! "_ETMMsg__path" = Some (VStr (f_name f)) ∧
    fs s1 !! h = Some f ∧ f_closed f = false ∧ f_pos f = 0%nat ∧
    ∀ i g, fs s1 !! i = Some g → (length (fs s) ≤ i)%nat → i ≠ h →
           f_closed g = true.
Proof.
  intros s s1.
  apply (resolved_file_is_open_and_rewound Sample.env s s1 "broken");
    first [discriminate | vm_compute; reflexivity].
Defined.

(** ** The constructor and the setters *)

Section Setters.
Context (env : Env).

Lemma assign_run name v s :
  ∃ d, assign name v s = (Ok tt, set_self d s).
Proof.
  unfold assign, set_file, set_path, set_filename, setattr, bind.
  repeat case_bool_decide; simpl; eauto.
Qed.

Lemma assign_all_run l s :
  ∃ d, assign_all l s = (Ok tt, set_self d s).
Proof.
  revert s. induction l as [|[name v] l IH]; intros s.
  - exists (self s). by destruct s.
  - simpl. destruct (assign_run name v s) as [d1 E1].
    erewrite bind_run by exact E1.
    destruct (IH (set_self d1 s)) as [d2 E2]. exists d2. by rewrite E2.
Qed.

End Setters.

(** X1. [ETMMsg()] never raises, touches no file and calls nothing
    outside; the new message is unresolved, even when the base
    constructor assigns [file] or [path], whose setters mark the message
    as resolved. *)
Theorem new_message_is_unresolved (env : Env) (s : state) :
  ∃ s1, __init__ env s = (Ok tt, s1) ∧
        self s1 !! "_ETMMsg__initialized" = Some (VBool false) ∧
        fs s1 = fs s ∧ trace s1 = trace s.
Proof.
  unfold __init__.
  destruct (assign_all_run (super_init env) s) as [d E].
  eexists. erewrite bind_run by exact E.
  split; [reflexivity|]. normg. by rewrite lookup_insert_eq.
Qed.

(** X2. After [m.file = f] no read ever resolves the content handle:
    every sequence of reads returns [f] for the file and, for the path
    and the file name, what was stored before the assignment ([None] on
    a new message), and it changes neither the message nor the
    temporary files nor the trace. *)
Theorem set_file_suppresses_resolution (env : Env) (s : state) (f : pyval)
    (l : list accessor) :
  let s1 := snd (set_file f s) in
  read_all env l s1 =
    (Ok (map (λ a, match a with
                   | GetFile => f
                   | _ => stored (slot a) (self s)
                   end) l), s1) ∧
  fs s1 = fs s ∧ trace s1 = trace s.
Proof.
  intros s1. split; [|done].
  erewrite read_all_resolved;
    [| subst s1; cbv [set_file bind setattr]; normg;
       by rewrite lookup_insert_ne, lookup_insert_eq | done].
  do 2 f_equal. apply map_ext. intros a.
  subst s1. cbv [set_file bind setattr]. normg. unfold stored.
  destruct a; simpl; by lookup_ins.
Qed.

(** X9. A file name set before the resolution wins: when [_load_file]
    succeeds on a message that is not a sticker and whose file name is
    already set and not empty, the file name is unchanged afterwards;
    the name of the temporary file is not used. *)
Theorem preset_file_name_is_kept (env : Env) (s s1 : state) (fid : string)
    (ty v : pyval) :
  self s !! "file_id" = Some (VStr fid) → fid ≠ "" →
  self s !! "type_telegram" = Some ty →
  ty ≠ VTGType TGMsgType.Sticker → ty ≠ VTGType TGMsgType.AnimatedSticker →
  self s !! "_ETMMsg__filename" = Some v → truthy v = true →
  _load_file env s = (Ok tt, s1) →
  self s1 !! "_ETMMsg__filename" = Some v.
Proof.
  intros Hfid Hne Hty H1 H2 Hv Htv H.
  apply load_file_inv with (fid := fid) in H
    as (x1 & x2 & name & payload & mime & t & Hpay & Hfs & Hself & Ht & Hq & Hn & ->);
    [|done|done].
  assert (self x1 !! "_ETMMsg__filename" = Some v) as Hx1.
  { rewrite Hself, lookup_insert_eq. unfold stored, py_or. rewrite Hv. simpl.
    by rewrite Htv. }
  apply normalize_inv in Hn as (ty1 & Hty1 & Hn).
  rewrite (getattr_some env "type_telegram" ty) in Hty1
    by (rewrite Hself, !lookup_insert_ne by done; exact Hty).
  injection Hty1 as <-.
  rewrite (bool_decide_eq_false_2 (ty = VTGType TGMsgType.Sticker)),
    (bool_decide_eq_false_2 (ty = VTGType TGMsgType.AnimatedSticker)) in Hn by done.
  normg. rewrite lookup_insert_ne by done.
  destruct (bool_decide (ty = VTGType TGMsgType.Animation)).
  - eapply load_animation_inv in Hn as (gif & Hs & _); [|exact Hfs].
    rewrite Hs. lookup_ins. unfold stored, py_or. rewrite Hx1. simpl.
    by rewrite Htv.
  - by subst x2.
Qed.

Lemma preset_file_name_is_kept_witness :
  let s := Sample.received
             (telegram.mkMessage None None None None None
                (Some (telegram.mkAudio "song" (Some "audio/mpeg")
                         (Some "Bohemian Rhapsody") (Some "Queen")))
                None []) "x" in
  let s1 := snd (_load_file Sample.env s) in
  self s1 !! "_ETMMsg__filename" = Some (VStr "Bohemian Rhapsody - Queen.mp3").
Proof.
  intros s s1.
  apply (preset_file_name_is_kept Sample.env s s1 "song"
           (VTGType TGMsgType.Audio) (VStr "Bohemian Rhapsody - Queen.mp3"));
    first [discriminate | vm_compute; reflexivity].
Defined.

(** ** Failures of the remote client *)

(** X10. When the bot answers for the handle but the download fails,
    [_load_file] raises before anything is written to the message: its
    attributes, the flag among them, are as before, and the empty
    temporary file created for the payload is left open. *)
Theorem failed_download_leaves_message_unchanged (env : Env) (s : state)
    (fid file_path : string) (v0 : pyval) :
  self s !! "file_id" = Some (VStr fid) → fid ≠ "" →
  self s !! "mime" = Some v0 →
  (truthy v0 = true → ∃ m, v0 = VStr m) →
  bot_get_file env fid = Some file_path →
  file_meta_download env fid = None →
  ∃ e name,
    _load_file env s =
      (Raise e,
       mkState (self s) (fs s ++ [mkTmp name [] 0 false])
         (trace s ++ [EvBotGetFile fid; EvDownload fid])).
Proof.
  intros Hfid Hne Hm Hstr Hmeta Hpay.
  assert (∃ e name,
            fetch env (VStr fid) s =
              (Raise e,
               mkState (self s) (fs s ++ [mkTmp name [] 0 false])
                 (trace s ++ [EvBotGetFile fid; EvDownload fid])))
    as (e & name & E).
  { unfold fetch. destruct s as [d l t0]. simpl in *.
    run by reflexivity. run by reflexivity.
    rewrite Hmeta. run by reflexivity.
    run by (by apply getattr_some).
    destruct (truthy v0) eqn:Et; simpl.
    - destruct Hstr as [m ->]; [done|].
      run by reflexivity. run by reflexivity. run_file.
      run by reflexivity. rewrite Hpay.
      eexists _, _. unfold bind. simpl. by rewrite <- app_assoc.
    - run by reflexivity. run by reflexivity. run_file.
      run by reflexivity. rewrite Hpay.
      eexists _, _. unfold bind. simpl. by rewrite <- app_assoc. }
  exists e, name. unfold _load_file.
  erewrite bind_run by (by apply getattr_some).
  rewrite truthy_nonempty by done.
  unfold bind at 1. unfold bind at 1. by rewrite E.
Qed.

Lemma failed_download_leaves_message_unchanged_witness :
  let env := mkEnv (bot_get_file Sample.env) (λ _, None)
               (splitext_ext Sample.env) (guess_type Sample.env)
               (guess_extension Sample.env) (guess_extension_strict Sample.env)
               (magic_from_file Sample.env)
               (bytes_decode Sample.env) (tmp_path Sample.env)
               (video_file_clip Sample.env) (popen_ffmpeg Sample.env)
               (write_gif Sample.env) (image_to_png Sample.env)
               (convert_tgs_to_gif Sample.env) (tgs_partial_output Sample.env)
               (tgs_input_pos Sample.env) (chat_id_to_str Sample.env)
               (chat_id_str_to_id Sample.env) (chat_ne Sample.env)
               (get_msg_type Sample.env) (super_getstate Sample.env)
               (super_setstate Sample.env) (super_init Sample.env)
               (super_class_attr Sample.env) in
  let s := Sample.received (Sample.gif "big") "x" in
  ∃ e name,
    _load_file env s =
      (Raise e,
       mkState (self s) (fs s ++ [mkTmp name [] 0 false])
         (trace s ++ [EvBotGetFile "big"; EvDownload "big"])).
Proof.
  intros env s.
  apply (failed_download_leaves_message_unchanged env s "big" "documents/big"
           (VStr "video/mp4"));
    first [discriminate | vm_compute; reflexivity | by eexists].
Defined.

(** ** Classifying a received message *)

Section Classify.
Context (env : Env).

Lemma put_telegram_file_uncommon message s :
  first_common_file message = None →
  put_telegram_file env message s =
    specific_checks env message
      (set_self (<["type_telegram" := VTGType (get_msg_type env message)]> (self s)) s).
Proof.
  unfold put_telegram_file, first_common_file, common_file_types. intros H.
  erewrite bind_run by reflexivity.
  unfold scan_common_files.
  destruct (telegram.animation message); [done|].
  destruct (telegram.document message); [done|].
  destruct (telegram.video message); [done|].
  destruct (telegram.voice message); [done|].
  destruct (telegram.video_note message); done.
Qed.

Lemma specific_checks_run message d l t0 t :
  d !! "type_telegram" = Some (VTGType t) →
  specific_checks env message (mkState d l t0) =
    match t with
    | TGMsgType.Audio => put_audio env message (mkState d l t0)
    | TGMsgType.Sticker => put_sticker message "image/webp" (mkState d l t0)
    | TGMsgType.AnimatedSticker =>
        (put_sticker message "application/json+tgs";;
         setattr "type" (VMsgType MsgType.Animation)) (mkState d l t0)
    | _ =>
        match last (telegram.photo message) with
        | Some attachment =>
            (Ok tt,
             mkState (<["mime" := VStr "image/jpeg"]>
                        (<["file_id" := VStr (telegram.photo_file_id attachment)]> d))
                     l t0)
        | None => (Ok tt, mkState d l t0)
        end
    end.
Proof.
  intros Ht. unfold specific_checks.
  erewrite bind_run by (by apply getattr_some).
  destruct t; try done.
  all: rewrite ?(bool_decide_eq_false_2 (_ = VTGType TGMsgType.Audio)),
         ?(bool_decide_eq_false_2 (_ = VTGType TGMsgType.Sticker)),
         ?(bool_decide_eq_false_2 (_ = VTGType TGMsgType.AnimatedSticker))
         by done.
  all: by destruct (last (telegram.photo message)).
Qed.

End Classify.

(** X11. A message with none of the five common attachments, which is
    neither an audio nor a sticker, and which carries a photo: the
    content handle is the file id of the last size in the list, the MIME
    type is [image/jpeg], and nothing else is written but the Telegram
    type. *)
Theorem photo_takes_last_size (env : Env) (message : telegram.Message)
    (s : state) (sizes : list telegram.PhotoSize) (p : telegram.PhotoSize) :
  first_common_file message = None →
  get_msg_type env message ≠ TGMsgType.Audio →
  get_msg_type env message ≠ TGMsgType.Sticker →
  get_msg_type env message ≠ TGMsgType.AnimatedSticker →
  telegram.photo message = (sizes ++ [p])%list →
  put_telegram_file env message s =
    (Ok tt,
     set_self
       (<["mime" := VStr "image/jpeg"]>
          (<["file_id" := VStr (telegram.photo_file_id p)]>
             (<["type_telegram" := VTGType (get_msg_type env message)]>
                (self s)))) s).
Proof.
  intros Hc H1 H2 H3 Hp.
  rewrite put_telegram_file_uncommon by done. destruct s as [d l t0].
  unfold set_self. cbn [self fs trace].
  erewrite specific_checks_run by apply lookup_insert_eq.
  rewrite Hp, last_snoc.
  by destruct (get_msg_type env message).
Qed.

Lemma photo_takes_last_size_witness :
  let message :=
    telegram.mkMessage None None None None None None None
      [telegram.mkPhotoSize "thumb"; telegram.mkPhotoSize "medium";
       telegram.mkPhotoSize "large"] in
  put_telegram_file Sample.env message Sample.new_msg =
    (Ok tt,
     set_self
       (<["mime" := VStr "image/jpeg"]>
          (<["file_id" := VStr "large"]>
             (<["type_telegram" := VTGType (get_msg_type Sample.env message)]>
                (self Sample.new_msg)))) Sample.new_msg).
Proof.
  intros message.
  apply (photo_takes_last_size Sample.env message Sample.new_msg
           [telegram.mkPhotoSize "thumb"; telegram.mkPhotoSize "medium"]
           (telegram.mkPhotoSize "large"));
    first [discriminate | vm_compute; reflexivity].
Defined.

(** X12. A message without any media (no common attachment, no photo,
    neither audio nor sticker) gets no content handle: on a message that
    had none, [put_telegram_file] writes the Telegram type only, and
    every later read of [file], [path] or [filename] returns what was
    stored before without calling anything outside. *)
Theorem message_without_media_has_no_file (env : Env)
    (message : telegram.Message) (s : state) (flag : pyval) (a : accessor) :
  first_common_file message = None →
  get_msg_type env message ≠ TGMsgType.Audio →
  get_msg_type env message ≠ TGMsgType.Sticker →
  get_msg_type env message ≠ TGMsgType.AnimatedSticker →
  telegram.photo message = [] →
  self s !! "_ETMMsg__initialized" = Some flag →
  has_content_handle (self s) = false →
  let s1 := set_self (<["type_telegram" := VTGType (get_msg_type env message)]>
                        (self s)) s in
  put_telegram_file env message s = (Ok tt, s1) ∧
  fst (read env a s1) = Ok (stored (slot a) (self s)) ∧
  trace (snd (read env a s1)) = trace s ∧
  fs (snd (read env a s1)) = fs s.
Proof.
  intros Hc H1 H2 H3 Hp Hf Hh s1.
  assert (put_telegram_file env message s = (Ok tt, s1)) as E.
  { rewrite put_telegram_file_uncommon by done. subst s1. destruct s as [d l t0].
    unfold set_self. cbn [self fs trace].
    erewrite specific_checks_run by apply lookup_insert_eq.
    rewrite Hp. by destruct (get_msg_type env message). }
  split; [done|].
  destruct (read_no_handle env s1 flag a) as (s2 & -> & Ht & Hfs).
  - subst s1. normg. by rewrite lookup_insert_ne.
  - subst s1. unfold has_content_handle in *. normg.
    by rewrite stored_insert_ne.
  - subst s1. simpl. split; [|done].
    rewrite stored_insert_ne; [done | by destruct a].
Qed.

Lemma message_without_media_has_no_file_witness :
  let s := Sample.new_msg in
  let s1 := set_self (<["type_telegram" :=
                          VTGType (get_msg_type Sample.env Sample.no_message)]>
                        (self s)) s in
  put_telegram_file Sample.env Sample.no_message s = (Ok tt, s1) ∧
  fst (read Sample.env GetPath s1) = Ok (stored (slot GetPath) (self s)) ∧
  trace (snd (read Sample.env GetPath s1)) = trace s ∧
  fs (snd (read Sample.env GetPath s1)) = fs s.
Proof.
  intros s.
  apply (message_without_media_has_no_file Sample.env Sample.no_message s
           (VBool false) GetPath);
    first [discriminate | vm_compute; reflexivity].
Defined.

(** X13. An audio message that declares its MIME type: the content
    handle and the MIME type are those of the audio, and the file name
    is the title, [ - ], the performer and the extension that
    [mimetypes.guess_extension], in its strict mode, gives for the MIME
    type, each of the three written as [None] when it is missing.  The
    flag is not touched, so the file is still resolved on demand. *)
Theorem audio_file_name_from_tags (env : Env) (message : telegram.Message)
    (s : state) (a : telegram.Audio) (m : string) :
  first_common_file message = None →
  get_msg_type env message = TGMsgType.Audio →
  telegram.audio message = Some a →
  telegram.audio_mime_type a = Some m →
  put_telegram_file env message s =
    (Ok tt,
     set_self
       (<["_ETMMsg__filename" :=
            VStr (py_format (telegram.title a) +:+ " - " +:+
                  py_format (telegram.performer a) +:+
                  py_format (guess_extension_strict env m))]>
          (<["mime" := VStr m]>
             (<["file_id" := VStr (telegram.audio_file_id a)]>
                (<["type_telegram" := VTGType TGMsgType.Audio]> (self s))))) s).
Proof.
  intros Hc Ht Ha Hm.
  rewrite put_telegram_file_uncommon by done. destruct s as [d l t0].
  unfold set_self. cbn [self fs trace]. rewrite Ht.
  erewrite specific_checks_run by apply lookup_insert_eq.
  unfold put_audio. rewrite Ha, Hm.
  erewrite bind_run by reflexivity.
  erewrite bind_run by reflexivity.
  erewrite bind_run by (apply getattr_some; apply lookup_insert_eq).
  reflexivity.
Qed.

Lemma audio_file_name_from_tags_witness :
  let a := telegram.mkAudio "song" (Some "audio/x-unknown") None (Some "Queen") in
  let message := telegram.mkMessage None None None None None (Some a) None [] in
  put_telegram_file Sample.env message Sample.new_msg =
    (Ok tt,
     set_self
       (<["_ETMMsg__filename" := VStr "None - QueenNone"]>
          (<["mime" := VStr "audio/x-unknown"]>
             (<["file_id" := VStr "song"]>
                (<["type_telegram" := VTGType TGMsgType.Audio]>
                   (self Sample.new_msg))))) Sample.new_msg).
Proof.
  intros a message.
  apply (audio_file_name_from_tags Sample.env message Sample.new_msg a
           "audio/x-unknown"); vm_compute; reflexivity.
Defined.

(** X14. An audio message that declares no MIME type makes
    [put_telegram_file] raise, at the guess of the extension: by then
    the Telegram type, the content handle and the MIME type [None] are
    written, and the file name is not. *)
Theorem audio_without_mime_raises (env : Env) (message : telegram.Message)
    (s : state) (a : telegram.Audio) :
  first_common_file message = None →
  get_msg_type env message = TGMsgType.Audio →
  telegram.audio message = Some a →
  telegram.audio_mime_type a = None →
  ∃ e,
    put_telegram_file env message s =
      (Raise e,
       set_self
         (<["mime" := VNone]>
            (<["file_id" := VStr (telegram.audio_file_id a)]>
               (<["type_telegram" := VTGType TGMsgType.Audio]> (self s)))) s).
Proof.
  intros Hc Ht Ha Hm.
  rewrite put_telegram_file_uncommon by done. destruct s as [d l t0].
  unfold set_self. cbn [self fs trace]. rewrite Ht.
  erewrite specific_checks_run by apply lookup_insert_eq.
  unfold put_audio. rewrite Ha, Hm.
  erewrite bind_run by reflexivity.
  erewrite bind_run by reflexivity.
  erewrite bind_run by (apply getattr_some; apply lookup_insert_eq).
  by eexists.
Qed.

Lemma audio_without_mime_raises_witness :
  let a := telegram.mkAudio "song" None (Some "Bohemian Rhapsody") (Some "Queen") in
  let message := telegram.mkMessage None None None None None (Some a) None [] in
  ∃ e,
    put_telegram_file Sample.env message Sample.new_msg =
      (Raise e,
       set_self
         (<["mime" := VNone]>
            (<["file_id" := VStr (telegram.audio_file_id a)]>
               (<["type_telegram" := VTGType TGMsgType.Audio]>
                  (self Sample.new_msg)))) Sample.new_msg).
Proof.
  intros a message.
  apply (audio_without_mime_raises Sample.env message Sample.new_msg a);
    vm_compute; reflexivity.
Defined.

(** X15. A sticker message with none of the five common attachments:
    the content handle is the file id of the sticker; a static sticker
    is declared [image/webp]; a vector sticker is declared
    [application/json+tgs] and the message type is set to
    [MsgType.Animation]. *)
Theorem sticker_declared_types (env : Env) (message : telegram.Message)
    (s : state) (st : telegram.Sticker) (animated : bool) :
  first_common_file message = None →
  telegram.sticker message = Some st →
  get_msg_type env message =
    (if animated then TGMsgType.AnimatedSticker else TGMsgType.Sticker) →
  let base := <["file_id" := VStr (telegram.sticker_file_id st)]>
                (<["type_telegram" := VTGType (get_msg_type env message)]> (self s)) in
  put_telegram_file env message s =
    (Ok tt,
     set_self
       (if animated
        then <["type" := VMsgType MsgType.Animation]>
               (<["mime" := VStr "application/json+tgs"]> base)
        else <["mime" := VStr "image/webp"]> base) s).
Proof.
  intros Hc Hs Ht base. subst base.
  rewrite put_telegram_file_uncommon by done. destruct s as [d l t0].
  unfold set_self. cbn [self fs trace]. rewrite Ht.
  destruct animated;
    erewrite specific_checks_run by apply lookup_insert_eq;
    unfold put_sticker; rewrite Hs; reflexivity.
Qed.

Lemma sticker_declared_types_witness :
  let message := Sample.tgs "dance" in
  let base := <["file_id" := VStr "dance"]>
                (<["type_telegram" := VTGType (get_msg_type Sample.env message)]>
                   (self Sample.new_msg)) in
  put_telegram_file Sample.env message Sample.new_msg =
    (Ok tt,
     set_self (<["type" := VMsgType MsgType.Animation]>
                 (<["mime" := VStr "application/json+tgs"]> base))
       Sample.new_msg).
Proof.
  intros message.
  apply (sticker_declared_types Sample.env message Sample.new_msg
           (telegram.mkSticker "dance" true) true); vm_compute; reflexivity.
Defined.

(** ** What the record keeps *)

Section Record.
Context (env : Env).

Lemma pickle_keeps_files F : preserves (λ s, fs s = F) (pickle env).
Proof.
  unfold pickle, add_task_set_slave_chat_info.
  repeat first
    [ apply preserves_bind; [|intros ?]
    | apply preserves_getattr | apply preserves_ret | apply preserves_raise
    | by intros ? ?
    | match goal with
      | |- preserves _ (py_ne _ ?a ?b) => unfold py_ne; destruct a, b
      | |- preserves _ (attr_is_self ?v) => unfold attr_is_self; destruct v
      | |- preserves _ (if ?c then _ else _) => destruct c
      end ].
Qed.

Lemma pickle_files s r s1 : pickle env s = (r, s1) → fs s1 = fs s.
Proof.
  intros H. pose proof (pickle_keeps_files (fs s) s eq_refl) as K.
  by rewrite H in K.
Qed.

End Record.

(** X16. [pickle] changes neither the message nor the temporary files,
    and for every attribute other than the file, the path, their private
    slots, the chat and the author its record carries exactly the entry
    the base class put in its state: the content handle, the MIME type,
    the Telegram type, the file name and the flag are never stripped, so
    the record of an unresolved message says unresolved. *)
Theorem pickle_keeps_other_attributes (env : Env) (s s1 : state)
    (rec : gmap string pyval) :
  pickle env s = (Ok rec, s1) →
  self s1 = self s ∧ fs s1 = fs s ∧
  ∀ k, k ∉ ["file"; "path"; "_ETMMsg__file"; "_ETMMsg__path"; "chat"; "author"] →
       rec !! k = super_getstate env (self s) !! k.
Proof.
  intros H. pose proof (pickle_files env _ _ _ H) as Hfs.
  apply pickle_inv in H as [Hrec Hself].
  repeat split; [done | done |].
  intros k Hk. by apply getstate_of_other.
Qed.

Lemma pickle_keeps_other_attributes_witness :
  let s := Sample.unresolved in
  let s1 := snd (pickle Sample.env s) in
  let rec := pickled Sample.env s in
  self s1 = self s ∧ fs s1 = fs s ∧
  ∀ k, k ∉ ["file"; "path"; "_ETMMsg__file"; "_ETMMsg__path"; "chat"; "author"] →
       rec !! k = super_getstate Sample.env (self s) !! k.
Proof.
  intros s s1 rec.
  apply (pickle_keeps_other_attributes Sample.env s s1 rec).
  vm_compute. reflexivity.
Defined.

(** ** From the classification to the first read *)

Section Received.
Context (env : Env).

Lemma put_telegram_file_common message s attachment :
  first_common_file message = Some (WithMime attachment) →
  put_telegram_file env message s =
    (Ok tt,
     set_self
       (<["mime" := of_opt_str (telegram.mime_type attachment)]>
          (<["file_id" := VStr (telegram.file_id attachment)]>
             (<["type_telegram" := VTGType (get_msg_type env message)]>
                (self s)))) s).
Proof.
  unfold put_telegram_file, first_common_file, common_file_types. intros H.
  erewrite bind_run by reflexivity.
  unfold scan_common_files.
  destruct (telegram.animation message); [by injection H as <-|].
  destruct (telegram.document message); [by injection H as <-|].
  destruct (telegram.video message); [by injection H as <-|].
  destruct (telegram.voice message); [by injection H as <-|].
  destruct (telegram.video_note message); done.
Qed.

End Received.

(** X20. A new message that received an animation, a document, a video
    or a voice as its first common attachment is resolved by its first
    read: [put_telegram_file] leaves it unresolved, and the first read
    of [file], [path] or [filename] asks the bot for the file id of the
    attachment that was chosen, before anything else. *)
Theorem received_media_resolves_on_first_read (env : Env)
    (message : telegram.Message) (s : state)
    (attachment : telegram.Attachment) (a : accessor) :
  first_common_file message = Some (WithMime attachment) →
  telegram.file_id attachment ≠ "" →
  self s !! "_ETMMsg__initialized" = Some (VBool false) →
  ∃ s1,
    put_telegram_file env message s = (Ok tt, s1) ∧
    self s1 !! "_ETMMsg__initialized" = Some (VBool false) ∧
    ∃ t : list event,
      trace (snd (read env a s1)) =
        (trace s ++ EvBotGetFile (telegram.file_id attachment) :: t)%list.
Proof.
  intros Hc Hne Hf. eexists. split; [by apply put_telegram_file_common|].
  split; [normg; by rewrite !lookup_insert_ne|].
  change (trace s) with
    (trace (set_self
              (<["mime" := of_opt_str (telegram.mime_type attachment)]>
                 (<["file_id" := VStr (telegram.file_id attachment)]>
                    (<["type_telegram" := VTGType (get_msg_type env message)]>
                       (self s)))) s)).
  apply read_starts; [| |done]; normg.
  - by rewrite !lookup_insert_ne.
  - by rewrite lookup_insert_ne, lookup_insert_eq.
Qed.

Lemma received_media_resolves_on_first_read_witness :
  ∃ s1,
    put_telegram_file Sample.env (Sample.gif "big") Sample.new_msg = (Ok tt, s1) ∧
    self s1 !! "_ETMMsg__initialized" = Some (VBool false) ∧
    ∃ t : list event,
      trace (snd (read Sample.env GetFilename s1)) =
        (trace Sample.new_msg ++ EvBotGetFile "big" :: t)%list.
Proof.
  apply (received_media_resolves_on_first_read Sample.env (Sample.gif "big")
           Sample.new_msg (telegram.mkAttachment "big" (Some "video/mp4"))
           GetFilename);
    first [discriminate | vm_compute; reflexivity].
Defined.

(** ** Conversion of a message of the framework *)

Section Conversion.
Context (env : Env) (etm_chat : pyval → option ETMChat).

Lemma init_run s :
  ∃ d, __init__ env s =
         (Ok tt, set_self (<["_ETMMsg__initialized" := VBool false]> d) s).
Proof.
  unfold __init__. destruct (assign_all_run (super_init env) s) as [d E].
  exists d. by erewrite bind_run by exact E.
Qed.

Lemma getattr_congr k s s' :
  self s !! k = self s' !! k →
  fst (getattr env k s) = fst (getattr env k s').
Proof. unfold getattr. intros ->. by repeat case_match. Qed.

Lemma getattr_ok k s v :
  fst (getattr env k s) = Ok v → getattr env k s = (Ok v, s).
Proof.
  intros H. destruct (getattr env k s) as [r s1] eqn:E.
  pose proof (getattr_inv _ _ _ _ _ E) as ->. simpl in H. by subst r.
Qed.

(** What [ensure_ETMChat] leaves: the attribute is an [ETMChat], the one
    it held or the one built from the value it held; no other attribute
    changes. *)
Lemma ensure_ETMChat_inv name s s1 :
  ensure_ETMChat env etm_chat name s = (Ok tt, s1) →
  ∃ v c,
    getattr env name s = (Ok v, s) ∧
    (if is_ETMChat v then v = VChat c else etm_chat v = Some c) ∧
    getattr env name s1 = (Ok (VChat c), s1) ∧
    fs s1 = fs s ∧ trace s1 = trace s ∧
    ∀ k, k ≠ name → self s1 !! k = self s !! k.
Proof.
  unfold ensure_ETMChat. intros H. mstep H as v E.
  pose proof (getattr_inv _ _ _ _ _ E) as ->.
  destruct v; simpl in H;
    try (mstep H as c E1; apply or_raise_inv in E1 as [Hc ->];
         pure_step H; eexists _, c; repeat split; try done;
         [ apply getattr_some; apply lookup_insert_eq
         | intros k Hk; simpl; by rewrite lookup_insert_ne ]).
  pure_step H. by eexists _, c.
Qed.

Lemma convert_target_inv source s v s1 :
  convert_target env etm_chat source s = (Ok v, s1) →
  ∃ d vc va c a,
    let d0 := <["_ETMMsg__initialized" := VBool false]> d in
    __init__ env (set_self ∅ s) = (Ok tt, set_self d0 s) ∧
    fst (getattr env "chat" (set_self (source ∪ d0) s)) = Ok vc ∧
    (if is_ETMChat vc then vc = VChat c else etm_chat vc = Some c) ∧
    fst (getattr env "author" (set_self (source ∪ d0) s)) = Ok va ∧
    (if is_ETMChat va then va = VChat a else etm_chat va = Some a) ∧
    getattr env "chat" s1 = (Ok (VChat c), s1) ∧
    getattr env "author" s1 = (Ok (VChat a), s1) ∧
    getattr env "reactions" s1 = (Ok v, s1) ∧
    fs s1 = fs s ∧ trace s1 = trace s ∧
    ∀ k, k ≠ "chat" → k ≠ "author" → self s1 !! k = (source ∪ d0) !! k.
Proof.
  unfold convert_target. intros H.
  mstep H as u E. injection E as <- <-.
  mstep H as u1 E. destruct (init_run (set_self ∅ s)) as [d Ed].
  rewrite Ed in E. injection E as <- <-.
  mstep H as u2 E. injection E as <- <-. norm H.
  mstep H as u3 E. destruct u3.
  apply ensure_ETMChat_inv in E as (vc & c & Evc & Hc & Ec & Hfs & Htr & Hk).
  mstep H as u4 E. destruct u4.
  apply ensure_ETMChat_inv in E as (va & a & Eva & Ha & Ea & Hfs1 & Htr1 & Hk1).
  pose proof (getattr_inv _ _ _ _ _ H) as ->.
  exists d, vc, va, c, a. cbv zeta. unfold set_self in *. cbn [self fs trace] in *.
  repeat split; try done.
  - by rewrite Evc.
  - erewrite getattr_congr; [by rewrite Eva|]. simpl. symmetry. by apply Hk.
  - apply getattr_ok. erewrite getattr_congr; [by rewrite Ec|]. by apply Hk1.
  - by rewrite Hfs1, Hfs.
  - by rewrite Htr1, Htr.
  - intros k H1 H2. by rewrite Hk1, Hk.
Qed.

Lemma from_efbmsg_inv source h s s1 h1 :
  from_efbmsg env etm_chat source h s = (Ok tt, s1, h1) →
  ∃ v, convert_target env etm_chat source s = (Ok v, s1) ∧
       match v with
       | VObject addr =>
           match h !! addr with
           | Some r => ∃ r', convert_reactions etm_chat r = (Ok tt, r')
                             ∧ h1 = <[addr := r']> h
           | None => h1 = h
           end
       | _ => h1 = h
       end.
Proof.
  unfold from_efbmsg. intros H.
  destruct (convert_target env etm_chat source s) as [[v|e] s0]; [|done].
  exists v.
  destruct v; try (injection H as <- <-; done).
  destruct (h !! addr) as [r|]; [|by injection H as <- <-].
  destruct (convert_reactions etm_chat r) as [res r'].
  injection H as -> <- <-. eauto.
Qed.

Lemma mapM_all_ETMChat l l' :
  map_ETMChat etm_chat l = Some l' → Forall (λ j, is_ETMChat j = true) l'.
Proof.
  unfold map_ETMChat. revert l'. induction l as [|x l IH]; intros l' H.
  - injection H as <-. constructor.
  - simpl in H. destruct (etm_chat x) as [c|]; simpl in H; [|done].
    destruct (mapM _ l) as [l1|]; simpl in H; [|done]. injection H as <-.
    constructor; [done | by apply IH].
Qed.

Lemma existsb_none_ETMChat l :
  existsb (λ j, negb (is_ETMChat j)) l = false →
  Forall (λ j, is_ETMChat j = true) l.
Proof.
  induction l as [|x l IH]; simpl; [constructor|].
  intros H. apply orb_false_iff in H as [H1 H2].
  constructor; [by destruct (is_ETMChat x) | by apply IH].
Qed.

Lemma convert_reactions_ok r r' :
  convert_reactions etm_chat r = (Ok tt, r') →
  Forall2 (λ e e',
             fst e' = fst e ∧
             if existsb (λ j, negb (is_ETMChat j)) (snd e)
             then map_ETMChat etm_chat (snd e) = Some (snd e')
             else snd e' = snd e) r r'.
Proof.
  revert r'. induction r as [|[i js] rest IH]; intros r' H; simpl in H.
  - injection H as <-. constructor.
  - destruct (existsb _ js) eqn:Ex.
    + destruct (map_ETMChat etm_chat js) as [js'|] eqn:Em; [|done].
      destruct (convert_reactions etm_chat rest) as [res rest'].
      injection H as -> <-. constructor; [|by apply IH].
      simpl. by rewrite Ex.
    + destruct (convert_reactions etm_chat rest) as [res rest'].
      injection H as -> <-. constructor; [|by apply IH].
      simpl. by rewrite Ex.
Qed.

End Conversion.

(** X17. When [from_efbmsg] returns, the chat and the author of the new
    message are [ETMChat] objects: the object the source held when it
    was one already, else the one the [ETMChat] constructor built from
    the value the source held.  The conversion touches no temporary
    file and calls nothing outside. *)
Theorem converted_chat_and_author_are_ETMChat (env : Env)
    (etm_chat : pyval → option ETMChat) (source : gmap string pyval)
    (h h1 : heap) (s s1 : state) :
  from_efbmsg env etm_chat source h s = (Ok tt, s1, h1) →
  ∃ c a,
    getattr env "chat" s1 = (Ok (VChat c), s1) ∧
    getattr env "author" s1 = (Ok (VChat a), s1) ∧
    (∀ v, source !! "chat" = Some v →
          if is_ETMChat v then v = VChat c else etm_chat v = Some c) ∧
    (∀ v, source !! "author" = Some v →
          if is_ETMChat v then v = VChat a else etm_chat v = Some a) ∧
    fs s1 = fs s ∧ trace s1 = trace s.
Proof.
  intros H. apply from_efbmsg_inv in H as (r & H & _).
  apply convert_target_inv in H
    as (d & vc & va & c & a & _ & Evc & Hc & Eva & Ha & Ec & Ea & _ & Hfs & Htr & _).
  exists c, a. repeat split; try done.
  - intros v Hv.
    rewrite (getattr_some env "chat" v) in Evc
      by (simpl; by apply lookup_union_Some_l).
    by injection Evc as <-.
  - intros v Hv.
    rewrite (getattr_some env "author" v) in Eva
      by (simpl; by apply lookup_union_Some_l).
    by injection Eva as <-.
Qed.

Lemma converted_chat_and_author_are_ETMChat_witness :
  let s1 := snd (fst (from_efbmsg Sample.env SampleSource.etm_chat
                        SampleSource.source SampleSource.reacted
                        Sample.empty_state)) in
  ∃ c a,
    getattr Sample.env "chat" s1 = (Ok (VChat c), s1) ∧
    getattr Sample.env "author" s1 = (Ok (VChat a), s1) ∧
    (∀ v, SampleSource.source !! "chat" = Some v →
          if is_ETMChat v then v = VChat c
          else SampleSource.etm_chat v = Some c) ∧
    (∀ v, SampleSource.source !! "author" = Some v →
          if is_ETMChat v then v = VChat a
          else SampleSource.etm_chat v = Some a) ∧
    fs s1 = fs Sample.empty_state ∧ trace s1 = trace Sample.empty_state.
Proof.
  intros s1.
  apply (converted_chat_and_author_are_ETMChat Sample.env SampleSource.etm_chat
           SampleSource.source SampleSource.reacted
           (snd (from_efbmsg Sample.env SampleSource.etm_chat
                   SampleSource.source SampleSource.reacted Sample.empty_state))
           Sample.empty_state s1).
  vm_compute. reflexivity.
Defined.

(** X18. When [from_efbmsg] returns and the reactions of the source are
    a dictionary, the new message refers to that same dictionary, and it
    is converted in place: its keys and their order are unchanged; a
    list that held only [ETMChat] objects is the list it was; a list
    that held anything else is replaced by the list of the [ETMChat]
    objects built from each of its members, those that were [ETMChat]
    objects included.  Afterwards every list holds [ETMChat] objects
    only. *)
Theorem converted_reactions_are_ETMChat (env : Env)
    (etm_chat : pyval → option ETMChat) (source : gmap string pyval)
    (h h1 : heap) (s s1 : state) (addr : nat) (r : reactions) :
  from_efbmsg env etm_chat source h s = (Ok tt, s1, h1) →
  source !! "reactions" = Some (VObject addr) →
  h !! addr = Some r →
  ∃ r',
    h1 = <[addr := r']> h ∧
    self s1 !! "reactions" = Some (VObject addr) ∧
    Forall2 (λ e e',
               fst e' = fst e ∧
               if existsb (λ j, negb (is_ETMChat j)) (snd e)
               then map_ETMChat etm_chat (snd e) = Some (snd e')
               else snd e' = snd e) r r' ∧
    Forall (λ e, Forall (λ j, is_ETMChat j = true) (snd e)) r'.
Proof.
  intros H Hsrc Hh. apply from_efbmsg_inv in H as (v & H & Hv).
  apply convert_target_inv in H
    as (d & vc & va & c & a & _ & _ & _ & _ & _ & _ & _ & Er & _ & _ & Hk).
  assert (self s1 !! "reactions" = Some (VObject addr)) as Hs1.
  { rewrite Hk by done. by apply lookup_union_Some_l. }
  rewrite (getattr_some env _ _ _ Hs1) in Er. injection Er as <-.
  rewrite Hh in Hv. destruct Hv as (r' & Hr' & ->).
  exists r'. split; [done|]. split; [done|].
  apply convert_reactions_ok in Hr'. split; [done|].
  clear -Hr'. induction Hr' as [|e e' r r' [_ He] _ IH]; constructor; [|done].
  destruct (existsb _ (snd e)) eqn:Ex.
  - by eapply mapM_all_ETMChat.
  - rewrite He. by apply existsb_none_ETMChat.
Qed.

Lemma converted_reactions_are_ETMChat_witness :
  let out := from_efbmsg Sample.env SampleSource.etm_chat
               SampleSource.source SampleSource.reacted Sample.empty_state in
  ∃ r',
    snd out = <[5%nat := r']> SampleSource.reacted ∧
    self (snd (fst out)) !! "reactions" = Some (VObject 5) ∧
    Forall2 (λ e e',
               fst e' = fst e ∧
               if existsb (λ j, negb (is_ETMChat j)) (snd e)
               then map_ETMChat SampleSource.etm_chat (snd e) = Some (snd e')
               else snd e' = snd e)
            [("like", [VObject 2; VChat Sample.alice]);
             ("laugh", [VChat Sample.room])] r' ∧
    Forall (λ e, Forall (λ j, is_ETMChat j = true) (snd e)) r'.
Proof.
  intros out.
  apply (converted_reactions_are_ETMChat Sample.env SampleSource.etm_chat
           SampleSource.source SampleSource.reacted (snd out)
           Sample.empty_state (snd (fst out)) 5
           [("like", [VObject 2; VChat Sample.alice]);
            ("laugh", [VChat Sample.room])]);
    vm_compute; reflexivity.
Defined.

(** X19. The file of a plain message of the framework does not show
    through the converted message.  For a source that has no content
    handle and none of the private attributes of [ETMMsg], the [file],
    [path] and [filename] entries of the source are copied into the
    instance dictionary, but the new message is unresolved and a read of
    [file], [path] or [filename] returns what the constructor stored
    for it, not the entry of the source; the read calls nothing
    outside. *)
Theorem converted_message_hides_source_file (env : Env)
    (etm_chat : pyval → option ETMChat) (source : gmap string pyval)
    (h h1 : heap) (s s1 : state) (a : accessor) :
  from_efbmsg env etm_chat source h s = (Ok tt, s1, h1) →
  source !! "_ETMMsg__initialized" = None →
  source !! "file_id" = None →
  source !! "_ETMMsg__file" = None →
  source !! "_ETMMsg__path" = None →
  source !! "_ETMMsg__filename" = None →
  let d0 := self (snd (__init__ env (set_self ∅ s))) in
  has_content_handle d0 = false →
  self s1 !! "_ETMMsg__initialized" = Some (VBool false) ∧
  (∀ k v, k ∈ ["file"; "path"; "filename"] → source !! k = Some v →
          self s1 !! k = Some v) ∧
  fst (read env a s1) = Ok (stored (slot a) d0) ∧
  trace (snd (read env a s1)) = trace s.
Proof.
  intros H Hflag Hid Hfile Hpath Hname d0 Hh.
  apply from_efbmsg_inv in H as (v & H & _).
  apply convert_target_inv in H
    as (d & vc & va & c & a0 & Ed & _ & _ & _ & _ & _ & _ & _ & Hfs & Htr & Hk).
  subst d0. rewrite Ed in *. cbn [snd set_self self] in *.
  assert (self s1 !! "_ETMMsg__initialized" = Some (VBool false)) as F.
  { rewrite Hk by done. rewrite lookup_union_r by done. apply lookup_insert_eq. }
  split; [done|]. split.
  { intros k w Hin Hw. rewrite Hk.
    - by apply lookup_union_Some_l.
    - intros ->. repeat (apply elem_of_cons in Hin as [Hin|Hin]; [done|]).
      by apply elem_of_nil in Hin.
    - intros ->. repeat (apply elem_of_cons in Hin as [Hin|Hin]; [done|]).
      by apply elem_of_nil in Hin. }
  destruct (read_no_handle env s1 (VBool false) a F) as (s2 & -> & Ht & _).
  { unfold has_content_handle, stored in *.
    rewrite Hk by done. by rewrite lookup_union_r by done. }
  simpl. split; [|by rewrite Ht].
  f_equal. unfold stored. rewrite Hk by (by destruct a).
  rewrite lookup_union_r; [done | by destruct a].
Qed.

Lemma converted_message_hides_source_file_witness :
  let s := Sample.empty_state in
  let s1 := snd (fst (from_efbmsg Sample.env SampleSource.etm_chat
                        SampleSource.source SampleSource.reacted s)) in
  let d0 := self (snd (__init__ Sample.env (set_self ∅ s))) in
  self s1 !! "_ETMMsg__initialized" = Some (VBool false) ∧
  (∀ k v, k ∈ ["file"; "path"; "filename"] → SampleSource.source !! k = Some v →
          self s1 !! k = Some v) ∧
  fst (read Sample.env GetFile s1) = Ok (stored (slot GetFile) d0) ∧
  trace (snd (read Sample.env GetFile s1)) = trace s.
Proof.
  intros s s1.
  apply (converted_message_hides_source_file Sample.env SampleSource.etm_chat
           SampleSource.source SampleSource.reacted
           (snd (from_efbmsg Sample.env SampleSource.etm_chat
                   SampleSource.source SampleSource.reacted s))
           s s1 GetFile); vm_compute; reflexivity.
Defined.
